(** * SLA-violation predictor: a shallow embedding of [backend/app/ml/predictor.py]

    The Python floats of the source are idealised as exact rationals ([Q]);
    every comparison and every arithmetic expression is written as in the
    source.  Exceptions are values of [exn], fallible computations return
    [result], and the methods of [MLPredictor] that mutate [self] are
    state transformers over the record [MLPredictor] (the state survives an
    exception, as attribute assignments do in Python). *)

From Stdlib Require Import QArith Lqa ZArith Lia List String Bool.
Import ListNotations.
Local Open Scope Q_scope.
Local Open Scope string_scope.

(** ** Python values: exceptions, results, insertion-ordered dictionaries *)

Inductive exn : Type :=
| ValueError (msg : string)
| IndexError
| AttributeError (attr : string)
| ImportError (module : string)
| RuntimeError (msg : string).

Inductive result (A : Type) : Type :=
| Ok (a : A)
| Raise (e : exn).
Arguments Ok {A} a.
Arguments Raise {A} e.

Definition rbind {A B} (r : result A) (k : A -> result B) : result B :=
  match r with
  | Ok a => k a
  | Raise e => Raise e
  end.

Declare Scope py_scope.
Delimit Scope py_scope with py.
Notation "x <- c ;; k" := (rbind c (fun x => k))
  (at level 61, c at next level, right associativity) : py_scope.
Local Open Scope py_scope.

(** [l[i]] for a non-negative literal index: [IndexError] out of range. *)
Definition index {A} (l : list A) (i : nat) : result A :=
  match nth_error l i with
  | Some x => Ok x
  | None => Raise IndexError
  end.

(** Calling a method that the object may lack ([AttributeError]). *)
Definition call {F} (attr : string) (m : option F) : result F :=
  match m with
  | Some f => Ok f
  | None => Raise (AttributeError attr)
  end.

Fixpoint mapM {A B} (f : A -> result B) (l : list A) : result (list B) :=
  match l with
  | [] => Ok []
  | x :: tl =>
      y <- f x ;;
      ys <- mapM f tl ;;
      Ok (y :: ys)
  end.

(** A [dict] keeps its keys in insertion order; assigning to a key that is
    present replaces the value in place. *)
Definition dict (V : Type) : Type := list (string * V).

Fixpoint dict_get {V} (d : dict V) (k : string) : option V :=
  match d with
  | [] => None
  | (k', v) :: tl => if String.eqb k' k then Some v else dict_get tl k
  end.

Fixpoint dict_set {V} (d : dict V) (k : string) (v : V) : dict V :=
  match d with
  | [] => [(k, v)]
  | (k', v') :: tl =>
      if String.eqb k' k then (k', v) :: tl else (k', v') :: dict_set tl k v
  end.

Definition dict_mem {V} (d : dict V) (k : string) : bool :=
  match dict_get d k with
  | Some _ => true
  | None => false
  end.

Definition dict_keys {V} (d : dict V) : list string := map fst d.

(** [dict(zip(ks, vs))] *)
Definition dict_of_zip {V} (ks : list string) (vs : list V) : dict V :=
  fold_left (fun d kv => dict_set d (fst kv) (snd kv)) (combine ks vs) [].

(** ** Float comparisons, [min] and [max] *)

Definition Qltb (a b : Q) : bool := negb (Qle_bool b a).

(** Python's [min(a, b)] is [b] only when [b < a]; [max(a, b)] is [b] only
    when [b > a]. *)
Definition py_min (a b : Q) : Q := if Qltb b a then b else a.
Definition py_max (a b : Q) : Q := if Qltb a b then b else a.

(** ** Model objects

    A model is whatever [joblib.load] returns, or one of the fallback
    classes; the serving code only calls a fixed set of methods on it and
    tests for some of them with [hasattr], so an object is the record of the
    methods it has.  Methods receive the 2-D array [X] as a list of rows. *)

Inductive shap_output : Type :=
| ShapList (per_class : list (list (list Q)))
| ShapArray (values : list (list Q)).

Record PyModel : Type := {
  predict : option (list (list Q) -> result (list Z));
  predict_proba : option (list (list Q) -> result (list (list Q)));
  decision_function : option (list (list Q) -> result (list Q));
  shap_values : option (list (list Q) -> result shap_output);
  expected_value : option Q
}.

Record PyScaler : Type := {
  transform : list (list Q) -> result (list (list Q))
}.

Module FallbackSLAPredictor.

Definition predict_row (row : list Q) : result Z :=
  latency <- index row 4 ;;
  if Qltb 10 latency then Ok 1%Z
  else
    packet_loss <- index row 3 ;;
    if Qltb 5 packet_loss then Ok 1%Z
    else
      throughput <- index row 1 ;;
      if Qltb throughput 1 then Ok 1%Z else Ok 0%Z.

Definition predict (X : list (list Q)) : result (list Z) :=
  mapM predict_row X.

Definition predict_proba_row (row : list Q) : result (list Q) :=
  r4 <- index row 4 ;;
  let latency_risk := py_min (r4 / 20) 1 in
  r3 <- index row 3 ;;
  let packet_loss_risk := py_min (r3 / 10) 1 in
  r1 <- index row 1 ;;
  let throughput_risk := py_max 0 ((2 - r1) / 2) in
  let risk := (latency_risk + packet_loss_risk + throughput_risk) / 3 in
  Ok [1 - risk; risk].

Definition predict_proba (X : list (list Q)) : result (list (list Q)) :=
  mapM predict_proba_row X.

Definition new : PyModel :=
  Build_PyModel (Some predict) (Some predict_proba) None None None.

End FallbackSLAPredictor.

Module FallbackAnomalyDetector.

Definition predict_row (row : list Q) : result Z :=
  latency <- index row 4 ;;
  if Qltb 20 latency then Ok (-1)%Z
  else
    packet_loss <- index row 3 ;;
    if Qltb 15 packet_loss then Ok (-1)%Z
    else
      jitter <- index row 5 ;;
      if Qltb 5 jitter then Ok (-1)%Z else Ok 1%Z.

Definition predict (X : list (list Q)) : result (list Z) :=
  mapM predict_row X.

Definition decision_function_row (row : list Q) : result Q :=
  r4 <- index row 4 ;;
  r3 <- index row 3 ;;
  r5 <- index row 5 ;;
  let score := 1 - (r4 / 30 + r3 / 20 + r5 / 10) / 3 in
  Ok (py_max (-1) (py_min 1 score)).

Definition decision_function (X : list (list Q)) : result (list Q) :=
  mapM decision_function_row X.

Definition new : PyModel :=
  Build_PyModel (Some predict) None (Some decision_function) None None.

End FallbackAnomalyDetector.

Module FallbackScaler.

Definition transform (X : list (list Q)) : result (list (list Q)) := Ok X.

Definition new : PyScaler := Build_PyScaler transform.

End FallbackScaler.

(** ** The predictor object and its environment *)

Record MLPredictor : Type := {
  model_dir : string;
  models : dict PyModel;
  scalers : dict PyScaler;
  feature_names : list string;
  models_loaded : bool
}.

(** [MLPredictor.__init__] *)
Definition MLPredictor_init (dir : string) : MLPredictor :=
  {| model_dir := dir;
     models := [];
     scalers := [];
     feature_names := [];
     models_loaded := false |}.

Definition set_models (self : MLPredictor) (m : dict PyModel) : MLPredictor :=
  {| model_dir := model_dir self; models := m; scalers := scalers self;
     feature_names := feature_names self; models_loaded := models_loaded self |}.

Definition set_scalers (self : MLPredictor) (s : dict PyScaler) : MLPredictor :=
  {| model_dir := model_dir self; models := models self; scalers := s;
     feature_names := feature_names self; models_loaded := models_loaded self |}.

Definition set_feature_names (self : MLPredictor) (n : list string) : MLPredictor :=
  {| model_dir := model_dir self; models := models self; scalers := scalers self;
     feature_names := n; models_loaded := models_loaded self |}.

Definition set_models_loaded (self : MLPredictor) (b : bool) : MLPredictor :=
  {| model_dir := model_dir self; models := models self; scalers := scalers self;
     feature_names := feature_names self; models_loaded := b |}.

(** What [load_models] finds outside the object: for each file of the model
    directory whether it exists and what [joblib.load] does with it, and
    whether [sklearn] can be imported. *)
Inductive artifact (A : Type) : Type :=
| Missing
| Corrupt (e : exn)
| Stored (a : A).
Arguments Missing {A}.
Arguments Corrupt {A} e.
Arguments Stored {A} a.

Record Env : Type := {
  dir_exists : bool;
  feature_names_pkl : artifact (list string);
  sla_predictor_pkl : artifact PyModel;
  anomaly_detector_pkl : artifact PyModel;
  shap_explainer_pkl : artifact PyModel;
  scaler_standard_pkl : artifact PyScaler;
  sklearn_importable : bool
}.

(** Methods that assign to attributes of [self]: the state is returned also
    when the method raises. *)
Definition action (A : Type) : Type := MLPredictor -> result A * MLPredictor.

Definition aret {A} (a : A) : action A := fun self => (Ok a, self).

Definition araise {A} (e : exn) : action A := fun self => (Raise e, self).

Definition abind {A B} (c : action A) (k : A -> action B) : action B :=
  fun self =>
    match c self with
    | (Ok a, self') => k a self'
    | (Raise e, self') => (Raise e, self')
    end.

Definition assign (f : MLPredictor -> MLPredictor) : action unit :=
  fun self => (Ok tt, f self).

(** [try: body except Exception as e: handler] *)
Definition atry {A} (body : action A) (handler : exn -> action A) : action A :=
  fun self =>
    match body self with
    | (Ok a, self') => (Ok a, self')
    | (Raise e, self') => handler e self'
    end.

Declare Scope act_scope.
Delimit Scope act_scope with act.
Notation "x <- c ;; k" := (abind c (fun x => k))
  (at level 61, c at next level, right associativity) : act_scope.
Notation "c ;; k" := (abind c (fun _ => k))
  (at level 61, right associativity) : act_scope.

Fixpoint for_each {A} (body : A -> action unit) (l : list A) : action unit :=
  match l with
  | [] => aret tt
  | x :: tl => (body x ;; for_each body tl)%act
  end.

Definition default_feature_names : list string :=
  ["bandwidth"; "throughput"; "congestion"; "packet_loss"; "latency"; "jitter"].

Definition _create_fallback_models (w : Env) : action unit :=
  atry
    ((if sklearn_importable w then aret tt else araise (ImportError "sklearn")) ;;
     assign (fun self =>
       set_models self (dict_set (models self) "sla_predictor" FallbackSLAPredictor.new)) ;;
     assign (fun self =>
       set_models self (dict_set (models self) "anomaly_detector" FallbackAnomalyDetector.new)) ;;
     assign (fun self =>
       set_scalers self (dict_set (scalers self) "standard" FallbackScaler.new)) ;;
     assign (fun self => set_feature_names self default_feature_names) ;;
     assign (fun self => set_models_loaded self true))%act
    (fun _ => assign (fun self => set_models_loaded self false)).

Definition model_files : dict string :=
  [("sla_predictor", "sla_predictor.pkl");
   ("anomaly_detector", "anomaly_detector.pkl");
   ("shap_explainer", "shap_explainer.pkl")].

(** The file of the model directory with the given name. *)
Definition model_file (w : Env) (filename : string) : artifact PyModel :=
  if String.eqb filename "sla_predictor.pkl" then sla_predictor_pkl w
  else if String.eqb filename "anomaly_detector.pkl" then anomaly_detector_pkl w
  else if String.eqb filename "shap_explainer.pkl" then shap_explainer_pkl w
  else Missing.

Definition scaler_file (w : Env) (filename : string) : artifact PyScaler :=
  if String.eqb filename "scaler_standard.pkl" then scaler_standard_pkl w
  else Missing.

(** [scaler_files], each with the name that the two [replace] calls of the
    source leave of it. *)
Definition scaler_files : list (string * string) :=
  [("scaler_standard.pkl", "standard")].

Definition load_models (w : Env) : action unit :=
  atry
    (fun self =>
       if negb (dir_exists w) then _create_fallback_models w self
       else
         ((match feature_names_pkl w with
           | Stored names => assign (fun self => set_feature_names self names)
           | Corrupt e => araise e
           | Missing => assign (fun self => set_feature_names self default_feature_names)
           end) ;;
          for_each (fun entry : string * string =>
            let (model_name, filename) := entry in
            match model_file w filename with
            | Stored m =>
                assign (fun self => set_models self (dict_set (models self) model_name m))
            | Corrupt e => araise e
            | Missing => aret tt
            end) model_files ;;
          for_each (fun entry : string * string =>
            let (filename, scaler_name) := entry in
            match scaler_file w filename with
            | Stored s =>
                assign (fun self => set_scalers self (dict_set (scalers self) scaler_name s))
            | Corrupt e => araise e
            | Missing => aret tt
            end) scaler_files ;;
          (fun self =>
             match models self with
             | [] => _create_fallback_models w self
             | _ :: _ => assign (fun self => set_models_loaded self true) self
             end))%act self)
    (fun _ => _create_fallback_models w).

Record ModelInfo : Type := {
  info_models_loaded : bool;
  available_models : list string;
  info_feature_names : list string;
  model_directory : string
}.

Definition get_model_info (self : MLPredictor) : ModelInfo :=
  {| info_models_loaded := models_loaded self;
     available_models := dict_keys (models self);
     info_feature_names := feature_names self;
     model_directory := model_dir self |}.

(** ** Serving methods *)

(** [try: body except Exception as e: handler] for code that does not assign
    to [self]. *)
Definition try_except {A} (body : result A) (handler : exn -> result A) : result A :=
  match body with
  | Ok a => Ok a
  | Raise e => handler e
  end.

(** [d[k]] *)
Definition getitem {V} (d : dict V) (k : string) : result V :=
  match dict_get d k with
  | Some v => Ok v
  | None => Raise (RuntimeError "KeyError")
  end.

Record SLAPrediction : Type := {
  prediction : Z;
  probability : Q;
  confidence : Q;
  model_version : string
}.

(** [rnd] is the number that [np.random.random()] returns, a float of
    [[0, 1)]. *)
Definition predict_sla_violation (self : MLPredictor) (features : list Q) (rnd : Q)
  : result SLAPrediction :=
  if negb (models_loaded self) || negb (dict_mem (models self) "sla_predictor")
  then Raise (ValueError "SLA predictor model not loaded")
  else
    try_except
      (let features_array := [features] in
       model <- getitem (models self) "sla_predictor" ;;
       model_predict <- call "predict" (predict model) ;;
       predictions <- model_predict features_array ;;
       prediction <- index predictions 0 ;;
       probability <-
         match predict_proba model with
         | Some model_predict_proba =>
             all_probabilities <- model_predict_proba features_array ;;
             probabilities <- index all_probabilities 0 ;;
             index probabilities 1
         | None => Ok (inject_Z prediction)
         end ;;
       let confidence := 0.85 + rnd * 0.1 in
       Ok {| prediction := prediction;
             probability := probability;
             confidence := confidence;
             model_version := "v1.0" |})
      (fun e => Raise e).

(** The findings that [_generate_anomaly_explanation] joins with ["; "]; the
    rendering of the numbers into the message text is not modelled. *)
Inductive finding : Type :=
| HighLatency (latency : Q)
| HighPacketLoss (packet_loss : Q)
| HighJitter (jitter : Q)
| HighCongestion (congestion : Q)
| LowThroughputEfficiency.

Inductive anomaly_explanation : Type :=
| WithinNormalParameters
| Findings (explanations : list finding)
| AnomalousPattern.

Definition _generate_anomaly_explanation (features : list Q) (is_anomaly : bool)
  : result anomaly_explanation :=
  if negb is_anomaly then Ok WithinNormalParameters
  else
    match features with
    | [bandwidth; throughput; congestion; packet_loss; latency; jitter] =>
        let explanations :=
          ((if Qltb 15 latency then [HighLatency latency] else []) ++
           (if Qltb 5 packet_loss then [HighPacketLoss packet_loss] else []) ++
           (if Qltb 5 jitter then [HighJitter jitter] else []) ++
           (if Qltb 80 congestion then [HighCongestion congestion] else []) ++
           (if Qltb throughput (bandwidth * 0.3) then [LowThroughputEfficiency] else []))%list
        in
        match explanations with
        | _ :: _ => Ok (Findings explanations)
        | [] => Ok AnomalousPattern
        end
    | _ => Raise (ValueError "wrong number of values to unpack")
    end.

Record AnomalyResult : Type := {
  is_anomaly : bool;
  anomaly_score : Q;
  explanation : anomaly_explanation
}.

(** The statement [if 'standard' in self.scalers: ... else: ...] of
    [detect_anomaly]. *)
Definition scale_if_available (self : MLPredictor) (features_array : list (list Q))
  : result (list (list Q)) :=
  match dict_get (scalers self) "standard" with
  | Some scaler => transform scaler features_array
  | None => Ok features_array
  end.

Definition detect_anomaly (self : MLPredictor) (features : list Q) : result AnomalyResult :=
  if negb (models_loaded self) || negb (dict_mem (models self) "anomaly_detector")
  then Raise (ValueError "Anomaly detector model not loaded")
  else
    try_except
      (let features_array := [features] in
       features_scaled <- scale_if_available self features_array ;;
       model <- getitem (models self) "anomaly_detector" ;;
       model_predict <- call "predict" (predict model) ;;
       predictions <- model_predict features_scaled ;;
       prediction <- index predictions 0 ;;
       let is_anomaly := Z.eqb prediction (-1) in
       anomaly_score <-
         match decision_function model with
         | Some model_decision_function =>
             scores <- model_decision_function features_scaled ;;
             score <- index scores 0 ;;
             Ok (py_max 0 ((1 - score) / 2))
         | None => Ok (if is_anomaly then 0.8 else 0.2)
         end ;;
       explanation <- _generate_anomaly_explanation features is_anomaly ;;
       Ok {| is_anomaly := is_anomaly;
             anomaly_score := anomaly_score;
             explanation := explanation |})
      (fun e => Raise e).

Module Explanation.
Record t : Type := {
  feature_importance : dict Q;
  shap_values : list Q;
  base_value : Q
}.
End Explanation.

Definition importance_weights : list Q := [0.1; 0.15; 0.2; 0.25; 0.25; 0.05].

(** The loop of [_generate_simple_explanation]: [i] is the index that
    [enumerate] gives, [acc] holds [feature_importance] and [shap_values]. *)
Fixpoint simple_explanation_loop (features : list Q) (i : nat)
    (pairs : list (string * Q)) (acc : dict Q * list Q) : result (dict Q * list Q) :=
  match pairs with
  | [] => Ok acc
  | (feature, weight) :: tl =>
      value <- index features i ;;
      let normalized_value := py_min (value / 10) 1 in
      let importance := normalized_value * weight in
      simple_explanation_loop features (S i) tl
        (dict_set (fst acc) feature importance, (snd acc ++ [importance])%list)
  end.

Definition _generate_simple_explanation (self : MLPredictor) (features : list Q)
  : result Explanation.t :=
  acc <- simple_explanation_loop features 0
           (combine (feature_names self) importance_weights) ([], []) ;;
  Ok {| Explanation.feature_importance := fst acc;
        Explanation.shap_values := snd acc;
        Explanation.base_value := 0.5 |}.

Definition explain_prediction (self : MLPredictor) (features : list Q)
  : result Explanation.t :=
  if negb (models_loaded self) then Raise (ValueError "Models not loaded")
  else
    try_except
      (match dict_get (models self) "shap_explainer" with
       | Some explainer =>
           let features_array := [features] in
           explainer_shap_values <- call "shap_values" (shap_values explainer) ;;
           values <- explainer_shap_values features_array ;;
           values <-
             match values with
             | ShapList per_class => index per_class 1
             | ShapArray values => Ok values
             end ;;
           row <- index values 0 ;;
           expected <- call "expected_value" (expected_value explainer) ;;
           Ok {| Explanation.feature_importance := dict_of_zip (feature_names self) row;
                 Explanation.shap_values := row;
                 Explanation.base_value := expected |}
       | None => _generate_simple_explanation self features
       end)
      (fun _ => _generate_simple_explanation self features).

(** ** Valid feature vectors and the fallback predictor *)

(** The six metrics in the fixed order, all non-negative, congestion and
    packet loss at most 100 (the bounds of [TelemetryBase]). *)
Definition valid_features (features : list Q) : bool :=
  match features with
  | [bandwidth; throughput; congestion; packet_loss; latency; jitter] =>
      Qle_bool 0 bandwidth && Qle_bool 0 throughput &&
      Qle_bool 0 congestion && Qle_bool congestion 100 &&
      Qle_bool 0 packet_loss && Qle_bool packet_loss 100 &&
      Qle_bool 0 latency && Qle_bool 0 jitter
  | _ => false
  end.

(** No model directory on disk; [sklearn] installed. *)
Definition no_model_dir : Env :=
  {| dir_exists := false;
     feature_names_pkl := Missing;
     sla_predictor_pkl := Missing;
     anomaly_detector_pkl := Missing;
     shap_explainer_pkl := Missing;
     scaler_standard_pkl := Missing;
     sklearn_importable := true |}.

(** The predictor that [main.py] builds at start-up when nothing was
    trained: [MLPredictor()] followed by [load_models()]. *)
Definition fallback_predictor : MLPredictor :=
  snd (load_models no_model_dir (MLPredictor_init "backend/app/ml/models")).

(** A predictor serves the fallback bank when it is loaded and its risk
    and anomaly models and its scaler are the fallback objects. *)
Definition serves_fallback (self : MLPredictor) : Prop :=
  models_loaded self = true /\
  dict_get (models self) "sla_predictor" = Some FallbackSLAPredictor.new /\
  dict_get (models self) "anomaly_detector" = Some FallbackAnomalyDetector.new /\
  dict_get (scalers self) "standard" = Some FallbackScaler.new.

(** The metrics of a feature vector that the fallback rules read. *)
Definition throughput_of (features : list Q) : Q := nth 1 features 0.
Definition packet_loss_of (features : list Q) : Q := nth 3 features 0.
Definition latency_of (features : list Q) : Q := nth 4 features 0.
Definition jitter_of (features : list Q) : Q := nth 5 features 0.

(** ** Environments used in the examples *)

(** An explainer object whose [shap_values] raises. *)
Definition failing_explainer : PyModel :=
  Build_PyModel None None None
    (Some (fun _ => Raise (RuntimeError "shap failure"))) (Some 0.5).

(** A model directory that holds [shap_explainer.pkl] and nothing else. *)
Definition only_explainer_dir : Env :=
  {| dir_exists := true;
     feature_names_pkl := Missing;
     sla_predictor_pkl := Missing;
     anomaly_detector_pkl := Missing;
     shap_explainer_pkl := Stored failing_explainer;
     scaler_standard_pkl := Missing;
     sklearn_importable := true |}.

(** No model directory, and [sklearn] cannot be imported. *)
Definition no_model_dir_no_sklearn : Env :=
  {| dir_exists := false;
     feature_names_pkl := Missing;
     sla_predictor_pkl := Missing;
     anomaly_detector_pkl := Missing;
     shap_explainer_pkl := Missing;
     scaler_standard_pkl := Missing;
     sklearn_importable := false |}.

(** A model directory that holds [feature_names.pkl] (with names other than
    the default six) and no model file. *)
Definition only_feature_names_dir : Env :=
  {| dir_exists := true;
     feature_names_pkl := Stored ["latency"; "jitter"];
     sla_predictor_pkl := Missing;
     anomaly_detector_pkl := Missing;
     shap_explainer_pkl := Missing;
     scaler_standard_pkl := Missing;
     sklearn_importable := true |}.

(** ** When [load_models] falls back *)

Definition is_missing {A} (a : artifact A) : bool :=
  match a with Missing => true | _ => false end.

Definition is_corrupt {A} (a : artifact A) : bool :=
  match a with Corrupt _ => true | _ => false end.

(** The model directory is missing, or none of the three model files is
    there, or [joblib.load] raises on one of the files that are. *)
Definition artifacts_unavailable (w : Env) : bool :=
  negb (dir_exists w) ||
  (is_missing (sla_predictor_pkl w) && is_missing (anomaly_detector_pkl w) &&
   is_missing (shap_explainer_pkl w)) ||
  (is_corrupt (feature_names_pkl w) || is_corrupt (sla_predictor_pkl w) ||
   is_corrupt (anomaly_detector_pkl w) || is_corrupt (shap_explainer_pkl w) ||
   is_corrupt (scaler_standard_pkl w)).

(** The call [load_models()] on [self]: the state it leaves. *)
Definition loaded (w : Env) (self : MLPredictor) : MLPredictor :=
  snd (load_models w self).

(** The one kind of model directory on which a second [load_models] leaves
    another state than the first: the directory exists, no model file is in
    it, nothing fails to load, the fallback classes can be created, and
    [feature_names.pkl] holds other names than the default six. *)
Definition stale_feature_names (w : Env) : bool :=
  dir_exists w &&
  (is_missing (sla_predictor_pkl w) && is_missing (anomaly_detector_pkl w) &&
   is_missing (shap_explainer_pkl w)) &&
  negb (is_corrupt (scaler_standard_pkl w)) &&
  sklearn_importable w &&
  match feature_names_pkl w with
  | Stored names =>
      if list_eq_dec string_dec names default_feature_names then false else true
  | _ => false
  end.

(** The contributions that the fixed-weight heuristic assigns to a feature
    vector, in the order of the features. *)
Definition weighted_contributions (features : list Q) : list Q :=
  map (fun vw : Q * Q => py_min (fst vw / 10) 1 * snd vw)
      (combine features importance_weights).

Definition Qsum (l : list Q) : Q := fold_right Qplus 0 l.

(** A model object all of whose prediction methods raise. *)
Definition failing_model : PyModel :=
  Build_PyModel
    (Some (fun _ => Raise (RuntimeError "predict failure")))
    (Some (fun _ => Raise (RuntimeError "predict_proba failure")))
    (Some (fun _ => Raise (RuntimeError "decision_function failure")))
    None None.


(** ** Further vocabulary for the properties of the loader *)

(** What [joblib.load] gives for a file that is there and loads. *)
Definition stored {A} (a : artifact A) : option A :=
  match a with
  | Stored x => Some x
  | _ => None
  end.

(** The row that [explain_prediction] reads out of the explainer's answer:
    row 0 of class 1 when the answer is a list of per-class arrays, row 0
    of the array otherwise. *)
Definition explained_row (out : shap_output) : result (list Q) :=
  match out with
  | ShapList per_class => values <- index per_class 1 ;; index values 0
  | ShapArray values => index values 0
  end.

(** An explainer that answers every vector with the same per-class rows. *)
Definition constant_explainer : PyModel :=
  Build_PyModel None None None
    (Some (fun _ =>
       Ok (ShapList [[[-0.1; -0.2; 0; 0; -0.3; 0]]; [[0.1; 0.2; 0; 0; 0.3; 0]]])))
    (Some 0.4).

(** A model directory with the three model files and the scaler of a
    training run in which the scaler file cannot be read. *)
Definition unreadable_scaler_dir : Env :=
  {| dir_exists := true;
     feature_names_pkl := Stored default_feature_names;
     sla_predictor_pkl := Stored failing_model;
     anomaly_detector_pkl := Stored failing_model;
     shap_explainer_pkl := Stored constant_explainer;
     scaler_standard_pkl := Corrupt (RuntimeError "unpickling failure");
     sklearn_importable := true |}.

(** A model directory with a predictor and a detector and nothing else. *)
Definition two_models_dir : Env :=
  {| dir_exists := true;
     feature_names_pkl := Missing;
     sla_predictor_pkl := Stored failing_model;
     anomaly_detector_pkl := Stored failing_model;
     shap_explainer_pkl := Missing;
     scaler_standard_pkl := Missing;
     sklearn_importable := true |}.

(** A method keeps the bundle when, from every state, it leaves the model
    directory as it is and every key of [models] in place. *)
Definition keeps_bundle {A} (c : action A) : Prop :=
  forall self,
    model_dir (snd (c self)) = model_dir self /\
    forall k, dict_mem (models self) k = true ->
              dict_mem (models (snd (c self))) k = true.

(** * The HTTP layer: [app/main.py] over [schemas.py] and [crud.py] *)

Module Schemas.

(** [schemas.TelemetryCreate]: the fields of [TelemetryBase] and
    [sla_violation]. *)
Record TelemetryCreate : Type := {
  bandwidth : Q;
  throughput : Q;
  congestion : Q;
  packet_loss : Q;
  latency : Q;
  jitter : Q;
  routers : option string;
  planned_route : option string;
  network_measure : string;
  network_target : string;
  video_target : option string;
  percentage_video_occupancy : option Q;
  bitrate_video : option Q;
  number_videos : option Z;
  sla_violation : option bool
}.

(** The keys of [telemetry.dict()]: every field of the model, set or not. *)
Definition dict_keys_of (telemetry : TelemetryCreate) : list string :=
  ["bandwidth"; "throughput"; "congestion"; "packet_loss"; "latency"; "jitter";
   "routers"; "planned_route"; "network_measure"; "network_target";
   "video_target"; "percentage_video_occupancy"; "bitrate_video";
   "number_videos"; "sla_violation"].

Definition with_sla_violation (telemetry : TelemetryCreate) (v : option bool)
  : TelemetryCreate :=
  {| bandwidth := bandwidth telemetry;
     throughput := throughput telemetry;
     congestion := congestion telemetry;
     packet_loss := packet_loss telemetry;
     latency := latency telemetry;
     jitter := jitter telemetry;
     routers := routers telemetry;
     planned_route := planned_route telemetry;
     network_measure := network_measure telemetry;
     network_target := network_target telemetry;
     video_target := video_target telemetry;
     percentage_video_occupancy := percentage_video_occupancy telemetry;
     bitrate_video := bitrate_video telemetry;
     number_videos := number_videos telemetry;
     sla_violation := v |}.

(** The [Field] constraints of the schema.  A request whose body breaks one
    of them is answered 422 by the framework before the route function is
    called, so a route function only ever receives records that meet
    them. *)
Definition within (lower : Q) (upper : option Q) (v : Q) : bool :=
  Qle_bool lower v &&
  match upper with
  | Some u => Qle_bool v u
  | None => true
  end.

Definition optional {A} (check : A -> bool) (v : option A) : bool :=
  match v with
  | Some x => check x
  | None => true
  end.

Definition validates (telemetry : TelemetryCreate) : bool :=
  within 0 None (bandwidth telemetry) &&
  within 0 None (throughput telemetry) &&
  within 0 (Some 100) (congestion telemetry) &&
  within 0 (Some 100) (packet_loss telemetry) &&
  within 0 None (latency telemetry) &&
  within 0 None (jitter telemetry) &&
  optional (within 0 (Some 100)) (percentage_video_occupancy telemetry) &&
  optional (within 0 None) (bitrate_video telemetry) &&
  optional (Z.leb 0) (number_videos telemetry).

(** A row of the [telemetry] table: the columns of the schema and the key
    that the database assigned. *)
Record Telemetry : Type := {
  id : Z;
  data : TelemetryCreate
}.

End Schemas.

(** A call that unpacks a dict into keyword arguments and passes further
    keywords by name: Python raises [TypeError] when a keyword is given
    both ways. *)
Definition keyword_call (unpacked : list string) (keywords : list string)
  : result unit :=
  if existsb (fun k => existsb (String.eqb k) unpacked) keywords
  then Raise (RuntimeError "TypeError: got multiple values for keyword argument")
  else Ok tt.

(** What a route function ends with: a response, or an [HTTPException],
    which is an [Exception] like any other inside the function. *)
Inductive raised : Type :=
| HTTPError (status_code : Z) (detail : string)
| PyError (e : exn).

Inductive outcome (A : Type) : Type :=
| Return (a : A)
| Fail (r : raised).
Arguments Return {A} a.
Arguments Fail {A} r.

Inductive http (A : Type) : Type :=
| Response (a : A)
| HTTPException (status_code : Z) (detail : string).
Arguments Response {A} a.
Arguments HTTPException {A} status_code detail.

Definition lift {A} (r : result A) : outcome A :=
  match r with
  | Ok a => Return a
  | Raise e => Fail (PyError e)
  end.

(** [except HTTPException: raise] followed by
    [except Exception as e: raise HTTPException(500, detail)]. *)
Definition reraise_http {A} (detail : string) (body : outcome A) : http A :=
  match body with
  | Return a => Response a
  | Fail (HTTPError status_code d) => HTTPException status_code d
  | Fail (PyError _) => HTTPException 500 detail
  end.

(** [except Exception as e: raise HTTPException(500, detail)] alone: an
    [HTTPException] of the body is caught like any other exception. *)
Definition catch_all {A} (detail : string) (body : outcome A) : http A :=
  match body with
  | Return a => Response a
  | Fail _ => HTTPException 500 detail
  end.

Module PredictReply.
Record t : Type := {
  sla_violation : Z;
  risk_score : Q;
  confidence : Q;
  model_version : string;
  timestamp : string;
  input_validation : string;
  risk_level : string;
  features_used : list string
}.
End PredictReply.

Module AnomalyReply.
Record t : Type := {
  is_anomaly : bool;
  anomaly_score : Q;
  explanation : anomaly_explanation;
  timestamp : string;
  severity : string;
  recommended_action : string;
  confidence : Q;
  model_type : string
}.
End AnomalyReply.

Module ExplainReply.
Record t : Type := {
  telemetry_id : Z;
  feature_importance : dict Q;
  shap_values : list Q;
  base_value : Q;
  timestamp : string;
  model_version : string
}.
End ExplainReply.

(** The task that [predict_and_store] hands to [background_tasks]:
    [send_high_risk_alert] with its four arguments. *)
Record HighRiskAlert : Type := {
  alert_source : string;
  alert_target : string;
  alert_risk_score : Q;
  alert_telemetry_id : Z
}.

Module Main.

(** The feature vector that every route builds from a record. *)
Definition features_of (telemetry : Schemas.TelemetryCreate) : list Q :=
  [Schemas.bandwidth telemetry; Schemas.throughput telemetry;
   Schemas.congestion telemetry; Schemas.packet_loss telemetry;
   Schemas.latency telemetry; Schemas.jitter telemetry].

(** [lifespan], the part that sets the global [ml_predictor]. *)
Definition startup_predictor (w : Env) : option MLPredictor :=
  match load_models w (MLPredictor_init "backend/app/ml/models") with
  | (Ok _, predictor) => Some predictor
  | (Raise _, _) => None
  end.

(** [not ml_predictor or not ml_predictor.models_loaded] *)
Definition models_unavailable (ml_predictor : option MLPredictor) : bool :=
  match ml_predictor with
  | None => true
  | Some predictor => negb (models_loaded predictor)
  end.

Section Routes.

(** [crud.create_telemetry] and [crud.get_telemetry_by_id] on the session
    of the request; [Db] is the state of the database. *)
Variable Db : Type.
Variable crud_create_telemetry :
  Db -> Schemas.TelemetryCreate -> result Schemas.Telemetry * Db.
Variable crud_get_telemetry_by_id : Db -> Z -> result (option Schemas.Telemetry).

(** POST /telemetry/ *)
Definition create_telemetry (telemetry : Schemas.TelemetryCreate) (db : Db)
  : http Schemas.Telemetry * Db :=
  if Qltb (Schemas.latency telemetry) 0 || Qltb (Schemas.packet_loss telemetry) 0
  then (catch_all "Failed to create telemetry record"
          (Fail (HTTPError 400 "Invalid metric values")), db)
  else if Qle_bool (Schemas.bandwidth telemetry) 0 ||
          Qltb (Schemas.throughput telemetry) 0
  then (catch_all "Failed to create telemetry record"
          (Fail (HTTPError 400 "Invalid bandwidth/throughput values")), db)
  else
    let (stored, db') := crud_create_telemetry db telemetry in
    (catch_all "Failed to create telemetry record" (lift stored), db').

(** [sla_violation=int(prediction["prediction"])] as the schema validates
    it into its optional boolean field. *)
Definition validate_sla_violation (v : Z) : result (option bool) :=
  if Z.eqb v 0 then Ok (Some false)
  else if Z.eqb v 1 then Ok (Some true)
  else Raise (RuntimeError "ValidationError").

(** POST /predict-and-store/; [alert_service] is whether the global of that
    name is set.  The result carries the database and the tasks that were
    added to [background_tasks]. *)
Definition predict_and_store (ml_predictor : option MLPredictor)
    (alert_service : bool) (telemetry : Schemas.TelemetryCreate) (db : Db) (rnd : Q)
  : http Schemas.Telemetry * Db * list HighRiskAlert :=
  let '(body, db', tasks) :=
    if models_unavailable ml_predictor
    then (Fail (HTTPError 503 "ML models not available"), db, [])
    else
      match ml_predictor with
      | None => (Fail (PyError (AttributeError "predict_sla_violation")), db, [])
      | Some predictor =>
          let features := features_of telemetry in
          match predict_sla_violation predictor features rnd with
          | Raise e => (Fail (PyError e), db, [])
          | Ok risk =>
              match
                (_ <- keyword_call (Schemas.dict_keys_of telemetry) ["sla_violation"] ;;
                 validate_sla_violation (prediction risk))
              with
              | Raise e => (Fail (PyError e), db, [])
              | Ok violation =>
                  let telemetry_with_prediction :=
                    Schemas.with_sla_violation telemetry violation in
                  match crud_create_telemetry db telemetry_with_prediction with
                  | (Raise e, db') => (Fail (PyError e), db', [])
                  | (Ok stored_telemetry, db') =>
                      (Return stored_telemetry, db',
                       if Qltb 0.75 (probability risk) && alert_service
                       then [{| alert_source := Schemas.network_measure telemetry;
                                alert_target := Schemas.network_target telemetry;
                                alert_risk_score := probability risk;
                                alert_telemetry_id := Schemas.id stored_telemetry |}]
                       else [])
                  end
              end
          end
      end
  in
  (reraise_http "Predict and store failed" body, db', tasks).

(** GET /explain/{telemetry_id}; [now] is the time stamp of the reply. *)
Definition explain_prediction (ml_predictor : option MLPredictor)
    (telemetry_id : Z) (db : Db) (now : string) : http ExplainReply.t :=
  reraise_http "Explanation failed"
    (if models_unavailable ml_predictor
     then Fail (HTTPError 503 "ML models not available")
     else
       match ml_predictor with
       | None => Fail (PyError (AttributeError "explain_prediction"))
       | Some predictor =>
           match crud_get_telemetry_by_id db telemetry_id with
           | Raise e => Fail (PyError e)
           | Ok None => Fail (HTTPError 404 "Telemetry record not found")
           | Ok (Some telemetry) =>
               let features := features_of (Schemas.data telemetry) in
               match explain_prediction predictor features with
               | Raise e => Fail (PyError e)
               | Ok explanation =>
                   Return
                     {| ExplainReply.telemetry_id := telemetry_id;
                        ExplainReply.feature_importance :=
                          Explanation.feature_importance explanation;
                        ExplainReply.shap_values := Explanation.shap_values explanation;
                        ExplainReply.base_value := Explanation.base_value explanation;
                        ExplainReply.timestamp := now;
                        ExplainReply.model_version := "v2.0" |}
               end
           end
       end).

End Routes.

(** POST /predict/ *)
Definition predict_sla_violation (ml_predictor : option MLPredictor)
    (telemetry : Schemas.TelemetryCreate) (rnd : Q) (now : string)
  : http PredictReply.t :=
  reraise_http "Prediction failed"
    (if models_unavailable ml_predictor
     then Fail (HTTPError 503 "ML models not available")
     else if existsb (fun val => Qltb val 0)
               [Schemas.bandwidth telemetry; Schemas.throughput telemetry;
                Schemas.latency telemetry]
     then Fail (HTTPError 400 "Invalid input values")
     else
       match ml_predictor with
       | None => Fail (PyError (AttributeError "predict_sla_violation"))
       | Some predictor =>
           let features := features_of telemetry in
           match predict_sla_violation predictor features rnd with
           | Raise e => Fail (PyError e)
           | Ok risk =>
               Return
                 {| PredictReply.sla_violation := prediction risk;
                    PredictReply.risk_score := probability risk;
                    PredictReply.confidence := confidence risk;
                    PredictReply.model_version := model_version risk;
                    PredictReply.timestamp := now;
                    PredictReply.input_validation := "passed";
                    PredictReply.risk_level :=
                      if Qltb 0.7 (probability risk) then "high"
                      else if Qltb 0.4 (probability risk) then "medium"
                      else "low";
                    PredictReply.features_used := default_feature_names |}
           end
       end).

(** POST /anomaly/ *)
Definition detect_anomaly (ml_predictor : option MLPredictor)
    (telemetry : Schemas.TelemetryCreate) (now : string) : http AnomalyReply.t :=
  reraise_http "Anomaly detection failed"
    (if models_unavailable ml_predictor
     then Fail (HTTPError 503 "ML models not available")
     else
       match ml_predictor with
       | None => Fail (PyError (AttributeError "detect_anomaly"))
       | Some predictor =>
           let features := features_of telemetry in
           match detect_anomaly predictor features with
           | Raise e => Fail (PyError e)
           | Ok anomaly_result =>
               Return
                 {| AnomalyReply.is_anomaly := is_anomaly anomaly_result;
                    AnomalyReply.anomaly_score := anomaly_score anomaly_result;
                    AnomalyReply.explanation := explanation anomaly_result;
                    AnomalyReply.timestamp := now;
                    AnomalyReply.severity :=
                      if Qltb 0.8 (anomaly_score anomaly_result) then "high"
                      else if Qltb 0.5 (anomaly_score anomaly_result) then "medium"
                      else "low";
                    AnomalyReply.recommended_action :=
                      if Qltb 0.8 (anomaly_score anomaly_result)
                      then "immediate_investigation"
                      else "monitor_closely";
                    AnomalyReply.confidence := 0.92;
                    AnomalyReply.model_type := "isolation_forest" |}
           end
       end).

(** GET /models/info *)
Definition get_model_info (ml_predictor : option MLPredictor) : http ModelInfo :=
  match ml_predictor with
  | None => HTTPException 503 "ML predictor not available"
  | Some predictor => Response (get_model_info predictor)
  end.

End Main.

(** ** Records used in the examples *)

Definition healthy_telemetry : Schemas.TelemetryCreate :=
  {| Schemas.bandwidth := 100;
     Schemas.throughput := 20;
     Schemas.congestion := 10;
     Schemas.packet_loss := 1;
     Schemas.latency := 5;
     Schemas.jitter := 0.5;
     Schemas.routers := None;
     Schemas.planned_route := None;
     Schemas.network_measure := "core-1";
     Schemas.network_target := "edge-4";
     Schemas.video_target := None;
     Schemas.percentage_video_occupancy := None;
     Schemas.bitrate_video := None;
     Schemas.number_videos := None;
     Schemas.sla_violation := None |}.

(** A table with one row under every key. *)
Definition one_row_table (db : unit) (telemetry_id : Z)
  : result (option Schemas.Telemetry) :=
  Ok (Some {| Schemas.id := telemetry_id; Schemas.data := healthy_telemetry |}).

(** * Alerts: [app/alert_service.py] *)

Module AlertService.

(** The configuration that [__init__] reads from the environment. *)
Record t : Type := {
  smtp_server : string;
  smtp_port : Z;
  smtp_username : string;
  smtp_password : string;
  from_email : string;
  telegram_bot_token : string;
  telegram_api_url : string
}.

(** The three entries of [email_templates] and of [telegram_templates]. *)
Inductive template : Type :=
| SlaViolationTemplate
| AnomalyTemplate
| SystemTemplate.

(** [templates.get(alert_type, templates["system"])] *)
Definition select_template (alert_type : string) : template :=
  if String.eqb alert_type "sla_violation" then SlaViolationTemplate
  else if String.eqb alert_type "anomaly" then AnomalyTemplate
  else SystemTemplate.

(** Truth value of a string and of an optional string. *)
Definition nonempty (s : string) : bool := negb (String.eqb s "").

Definition given (s : option string) : bool :=
  match s with
  | Some s => nonempty s
  | None => false
  end.

(** What reaches the outside: an SMTP session that was opened for a
    message, a request that was posted to the Telegram API. *)
Inductive attempt : Type :=
| SmtpSession (server : string) (port : Z) (username : string)
    (to_email : string) (subject : string) (html_body : string)
| TelegramPost (url : string) (chat_id : string) (text : string).

Section Channels.

(** The alert payload, the rendering of a template on it (the formatted
    text is not modelled), and the outcome of the two transports: whether
    the SMTP session raises, and the status of the HTTP reply or the
    exception of the request. *)
Variable Data : Type.
Variable render_email : template -> Data -> result (string * string).
Variable render_telegram : template -> Data -> result string.
Variable smtp_outcome : attempt -> result unit.
Variable telegram_outcome : attempt -> result Z.

Definition send_email_alert (self : t) (to_email : string) (alert_type : string)
    (data : Data) (log : list attempt) : bool * list attempt :=
  if negb (nonempty (smtp_username self)) || negb (nonempty (smtp_password self))
  then (false, log)
  else
    match render_email (select_template alert_type) data with
    | Raise _ => (false, log)
    | Ok (subject, html_body) =>
        let session :=
          SmtpSession (smtp_server self) (smtp_port self) (smtp_username self)
            to_email subject html_body in
        match smtp_outcome session with
        | Ok _ => (true, (log ++ [session])%list)
        | Raise _ => (false, (log ++ [session])%list)
        end
    end.

Definition send_telegram_alert (self : t) (chat_id : string) (alert_type : string)
    (data : Data) (log : list attempt) : bool * list attempt :=
  if negb (nonempty (telegram_bot_token self))
  then (false, log)
  else
    match render_telegram (select_template alert_type) data with
    | Raise _ => (false, log)
    | Ok message =>
        let post :=
          TelegramPost (telegram_api_url self ++ "/sendMessage") chat_id message in
        match telegram_outcome post with
        | Ok status => (Z.eqb status 200, (log ++ [post])%list)
        | Raise _ => (false, (log ++ [post])%list)
        end
    end.

Definition send_multi_channel_alert (self : t) (alert_type : string) (data : Data)
    (email : option string) (telegram_chat_id : option string) (log : list attempt)
  : dict bool * list attempt :=
  let results := [] in
  let '(results, log) :=
    match email with
    | Some to_email =>
        if nonempty to_email
        then let (sent, log') := send_email_alert self to_email alert_type data log in
             (dict_set results "email" sent, log')
        else (results, log)
    | None => (results, log)
    end in
  match telegram_chat_id with
  | Some chat_id =>
      if nonempty chat_id
      then let (sent, log') := send_telegram_alert self chat_id alert_type data log in
           (dict_set results "telegram" sent, log')
      else (results, log)
  | None => (results, log)
  end.

End Channels.

End AlertService.

(** * Training labels: [app/ml/train.py] *)

Module MLTrainer.

(** One row of [_generate_sla_labels]: the five conditions are combined
    with the element-wise [|], so all of them are evaluated.  The quotient
    of a float column by a zero bandwidth is infinite or not a number, and
    is below 0.3 only when the throughput is negative. *)
Definition low_efficiency (throughput bandwidth : Q) : bool :=
  if Qeq_bool bandwidth 0 then Qltb throughput 0
  else Qltb (throughput / bandwidth) 0.3.

Definition conditions (row : list Q) : result bool :=
  match row with
  | [bandwidth; throughput; congestion; packet_loss; latency; jitter] =>
      Ok (Qltb 15 latency || Qltb 5 packet_loss || Qltb 3 jitter ||
          Qltb 80 congestion || low_efficiency throughput bandwidth)
  | _ => Raise (RuntimeError "KeyError")
  end.

(** The label of a row; [draw] is the row's entry of
    [np.random.random(len(df))]. *)
Definition _generate_sla_labels (row : list Q) (draw : Q) : result Z :=
  met <- conditions row ;;
  let random_factor := Qltb draw 0.1 in
  Ok (if met || random_factor then 1%Z else 0%Z).

End MLTrainer.

(** ** Alert configurations and transports used in the examples *)

Definition unconfigured_alerts : AlertService.t :=
  {| AlertService.smtp_server := "smtp.gmail.com";
     AlertService.smtp_port := 587;
     AlertService.smtp_username := "";
     AlertService.smtp_password := "";
     AlertService.from_email := "";
     AlertService.telegram_bot_token := "";
     AlertService.telegram_api_url := "https://api.telegram.org/bot" |}.

Definition telegram_only_alerts : AlertService.t :=
  {| AlertService.smtp_server := "smtp.gmail.com";
     AlertService.smtp_port := 587;
     AlertService.smtp_username := "";
     AlertService.smtp_password := "";
     AlertService.from_email := "";
     AlertService.telegram_bot_token := "123:abc";
     AlertService.telegram_api_url := "https://api.telegram.org/bot123:abc" |}.

Definition plain_email (tpl : AlertService.template) (data : unit)
  : result (string * string) := Ok ("subject", "body").

Definition plain_telegram (tpl : AlertService.template) (data : unit)
  : result string := Ok "text".

Definition smtp_refuses (a : AlertService.attempt) : result unit :=
  Raise (RuntimeError "SMTPAuthenticationError").

Definition telegram_accepts (a : AlertService.attempt) : result Z := Ok 200%Z.

(** ** Detectors and scalers used in the examples *)

(** A stored detector that flags every row and whose [decision_function]
    is -3 on every row. *)
Definition out_of_range_detector : PyModel :=
  Build_PyModel
    (Some (fun X => Ok (map (fun _ => (-1)%Z) X)))
    None
    (Some (fun X => Ok (map (fun _ => -3) X)))
    None None.

(** A model directory with that detector and nothing else. *)
Definition out_of_range_detector_dir : Env :=
  {| dir_exists := true;
     feature_names_pkl := Missing;
     sla_predictor_pkl := Missing;
     anomaly_detector_pkl := Stored out_of_range_detector;
     shap_explainer_pkl := Missing;
     scaler_standard_pkl := Missing;
     sklearn_importable := true |}.



(** A model directory with a stored predictor, no explainer, and a
    [feature_names.pkl] that holds two names. *)
Definition custom_names_dir : Env :=
  {| dir_exists := true;
     feature_names_pkl := Stored ["latency"; "jitter"];
     sla_predictor_pkl := Stored FallbackSLAPredictor.new;
     anomaly_detector_pkl := Missing;
     shap_explainer_pkl := Missing;
     scaler_standard_pkl := Missing;
     sklearn_importable := true |}.

(** A record that the schema accepts and whose bandwidth is 0. *)
Definition zero_bandwidth_telemetry : Schemas.TelemetryCreate :=
  {| Schemas.bandwidth := 0;
     Schemas.throughput := 0;
     Schemas.congestion := 10;
     Schemas.packet_loss := 1;
     Schemas.latency := 5;
     Schemas.jitter := 0.5;
     Schemas.routers := None;
     Schemas.planned_route := None;
     Schemas.network_measure := "core-1";
     Schemas.network_target := "edge-4";
     Schemas.video_target := None;
     Schemas.percentage_video_occupancy := None;
     Schemas.bitrate_video := None;
     Schemas.number_videos := None;
     Schemas.sla_violation := None |}.

(** A table that stores every record under the key 1. *)
Definition insert_as_first (db : unit) (telemetry : Schemas.TelemetryCreate)
  : result Schemas.Telemetry * unit :=
  (Ok {| Schemas.id := 1; Schemas.data := telemetry |}, db).
(** * Properties *)

Section Numbers.

Lemma Qltb_lt (a b : Q) : Qltb a b = true <-> a < b.
Proof.
  unfold Qltb. rewrite negb_true_iff, <- not_true_iff_false, Qle_bool_iff.
  split; intro H; [apply Qnot_le_lt | apply Qlt_not_le]; exact H.
Qed.

Lemma Qltb_ge (a b : Q) : Qltb a b = false <-> b <= a.
Proof.
  unfold Qltb. rewrite negb_false_iff, Qle_bool_iff. reflexivity.
Qed.

Lemma Qltb_cases (a b : Q) :
  (Qltb a b = true /\ a < b) \/ (Qltb a b = false /\ b <= a).
Proof.
  destruct (Qltb a b) eqn:E; [left | right]; split; trivial.
  - now apply Qltb_lt.
  - now apply Qltb_ge.
Qed.

Lemma py_min_cases (a b : Q) :
  (py_min a b = a /\ a <= b) \/ (py_min a b = b /\ b < a).
Proof.
  unfold py_min. destruct (Qltb_cases b a) as [[-> H] | [-> H]]; auto.
Qed.

Lemma py_max_cases (a b : Q) :
  (py_max a b = a /\ b <= a) \/ (py_max a b = b /\ a < b).
Proof.
  unfold py_max. destruct (Qltb_cases a b) as [[-> H] | [-> H]]; auto.
Qed.

End Numbers.

Ltac case_min a b :=
  let E := fresh "E" in
  let H := fresh "Hmin" in
  destruct (py_min_cases a b) as [[E H] | [E H]]; rewrite E in *; clear E.

Ltac case_max a b :=
  let E := fresh "E" in
  let H := fresh "Hmax" in
  destruct (py_max_cases a b) as [[E H] | [E H]]; rewrite E in *; clear E.

Ltac split_min_max :=
  repeat match goal with
    | |- context [py_min ?a ?b] => case_min a b
    | |- context [py_max ?a ?b] => case_max a b
    | _ : context [py_min ?a ?b] |- _ => case_min a b
    | _ : context [py_max ?a ?b] |- _ => case_max a b
    end.

(** Linear arithmetic over [Q] after the divisions by constants of the source
    are turned into multiplications. *)
Ltac const_inverses :=
  unfold Qdiv in *;
  repeat match goal with
    | |- context [Qinv ?c] =>
        let v := eval vm_compute in (Qinv c) in progress change (Qinv c) with v in *
    | H : context [Qinv ?c] |- _ =>
        let v := eval vm_compute in (Qinv c) in progress change (Qinv c) with v in *
    end.

Ltac qlra := const_inverses; lra.

Lemma valid_features_inv (features : list Q) :
  valid_features features = true ->
  exists bandwidth throughput congestion packet_loss latency jitter,
    features = [bandwidth; throughput; congestion; packet_loss; latency; jitter] /\
    0 <= bandwidth /\ 0 <= throughput /\ 0 <= congestion <= 100 /\
    0 <= packet_loss <= 100 /\ 0 <= latency /\ 0 <= jitter.
Proof.
  destruct features as [|b [|t [|c [|p [|l [|j [|x tl]]]]]]]; simpl; try discriminate.
  rewrite !andb_true_iff, !Qle_bool_iff.
  intros [[[[[[[Hb Ht] Hc] Hc'] Hp] Hp'] Hl] Hj].
  exists b, t, c, p, l, j. repeat split; assumption.
Qed.

Lemma fallback_predictor_serves_fallback : serves_fallback fallback_predictor.
Proof. repeat split. Qed.

(** ** Risk prediction *)

Section RiskPrediction.

Variable self : MLPredictor.
Hypothesis fallback : serves_fallback self.

Lemma predict_sla_violation_fallback_eq (b t c p l j rnd : Q) :
  predict_sla_violation self [b; t; c; p; l; j] rnd =
  Ok {| prediction :=
          if Qltb 10 l then 1 else if Qltb 5 p then 1 else if Qltb t 1 then 1 else 0;
        probability :=
          (py_min (l / 20) 1 + py_min (p / 10) 1 + py_max 0 ((2 - t) / 2)) / 3;
        confidence := 0.85 + rnd * 0.1;
        model_version := "v1.0" |}.
Proof.
  destruct fallback as (Hloaded & Hsla & _).
  unfold predict_sla_violation, dict_mem, getitem.
  rewrite Hloaded, Hsla. simpl.
  unfold FallbackSLAPredictor.predict, FallbackSLAPredictor.predict_row. simpl.
  destruct (Qltb 10 l); [reflexivity|].
  destruct (Qltb 5 p); [reflexivity|].
  destruct (Qltb t 1); reflexivity.
Qed.

(** C1 (as amended): with the fallback models installed,
    [predict_sla_violation] returns, for every valid feature vector, a
    probability in [[0,1]] and a label in {0,1}; the label is 1 exactly
    when latency > 10 or packet_loss > 5 or throughput < 1. *)
Theorem predict_sla_violation_fallback_range (features : list Q) (rnd : Q) :
  valid_features features = true ->
  exists r,
    predict_sla_violation self features rnd = Ok r /\
    0 <= probability r <= 1 /\
    (prediction r = 0%Z \/ prediction r = 1%Z) /\
    (prediction r = 1%Z <->
     10 < latency_of features \/ 5 < packet_loss_of features \/
     throughput_of features < 1).
Proof.
  intros Hvalid.
  destruct (valid_features_inv _ Hvalid)
    as (b & t & c & p & l & j & -> & Hb & Ht & Hc & Hp & Hl & Hj).
  eexists. split; [apply predict_sla_violation_fallback_eq|].
  unfold latency_of, packet_loss_of, throughput_of. simpl.
  split; [|split].
  - split_min_max; qlra.
  - destruct (Qltb 10 l), (Qltb 5 p), (Qltb t 1); auto.
  - destruct (Qltb_cases 10 l) as [[-> H1] | [-> H1]];
      [tauto|].
    destruct (Qltb_cases 5 p) as [[-> H2] | [-> H2]];
      [tauto|].
    destruct (Qltb_cases t 1) as [[-> H3] | [-> H3]];
      [tauto|].
    split; [discriminate|].
    intros [H | [H | H]]; lra.
Qed.

End RiskPrediction.

Lemma predict_sla_violation_fallback_range_witness :
  exists r,
    predict_sla_violation fallback_predictor [100; 20; 10; 1; 5; 0.5] 0 = Ok r /\
    0 <= probability r <= 1 /\
    (prediction r = 0%Z \/ prediction r = 1%Z) /\
    (prediction r = 1%Z <->
     10 < latency_of [100; 20; 10; 1; 5; 0.5] \/
     5 < packet_loss_of [100; 20; 10; 1; 5; 0.5] \/
     throughput_of [100; 20; 10; 1; 5; 0.5] < 1).
Proof.
  apply (predict_sla_violation_fallback_range fallback_predictor).
  - repeat split.
  - reflexivity.
Defined.

(** C1 as stated fails under the fallback rules: a valid vector with latency
    11 is labelled 1 although its probability is 13/60, below 0.5, while
    the valid vector with latency 10, packet loss 5 and throughput 1 is
    labelled 0 at the higher probability 1/2; no threshold on the
    probability separates the two labels. *)
Lemma fallback_label_does_not_follow_probability :
  valid_features [100; 20; 10; 1; 11; 0.5] = true /\
  valid_features [100; 1; 10; 5; 10; 0.5] = true /\
  exists r1 r0,
    predict_sla_violation fallback_predictor [100; 20; 10; 1; 11; 0.5] 0 = Ok r1 /\
    predict_sla_violation fallback_predictor [100; 1; 10; 5; 10; 0.5] 0 = Ok r0 /\
    prediction r1 = 1%Z /\ probability r1 == 13 # 60 /\ probability r1 < 0.5 /\
    prediction r0 = 0%Z /\ probability r0 == 1 # 2 /\
    probability r1 < probability r0.
Proof.
  split; [reflexivity|]. split; [reflexivity|].
  eexists. eexists.
  split; [vm_compute; reflexivity|].
  split; [vm_compute; reflexivity|].
  repeat split.
Qed.

(** ** Anomaly detection *)

Lemma generate_anomaly_explanation_returns (b t c p l j : Q) (flag : bool) :
  exists e, _generate_anomaly_explanation [b; t; c; p; l; j] flag = Ok e.
Proof.
  unfold _generate_anomaly_explanation.
  destruct flag; simpl; [|eexists; reflexivity].
  destruct (Qltb 15 l), (Qltb 5 p), (Qltb 5 j), (Qltb 80 c), (Qltb t (b * 0.3));
    simpl; eexists; reflexivity.
Qed.




(** C2 fails on the code for a stored detector: the transform only clamps
    at 0, so a detector whose [decision_function] is -3 gets the score 2,
    outside the [[0, 1]] that the comment on the transform, the clamp of the
    fallback detector and the response schema all promise. *)
Lemma stored_detector_scores_above_one :
  fst (load_models out_of_range_detector_dir
         (MLPredictor_init "backend/app/ml/models")) = Ok tt /\
  models_loaded
    (loaded out_of_range_detector_dir (MLPredictor_init "backend/app/ml/models")) =
    true /\
  valid_features [100; 20; 10; 1; 5; 0.5] = true /\
  exists r,
    detect_anomaly
      (loaded out_of_range_detector_dir (MLPredictor_init "backend/app/ml/models"))
      [100; 20; 10; 1; 5; 0.5] = Ok r /\
    anomaly_score r == 2 /\
    ~ anomaly_score r <= 1.
Proof.
  split; [reflexivity|]. split; [reflexivity|]. split; [reflexivity|].
  eexists. split; [vm_compute; reflexivity|].
  split; [reflexivity|].
  vm_compute. intros H. apply H. reflexivity.
Qed.

Section FallbackAnomaly.

Variable self : MLPredictor.
Hypothesis fallback : serves_fallback self.

Lemma detect_anomaly_fallback_eq (b t c p l j : Q) :
  exists e,
    detect_anomaly self [b; t; c; p; l; j] =
    Ok {| is_anomaly := Qltb 20 l || Qltb 15 p || Qltb 5 j;
          anomaly_score :=
            py_max 0 ((1 - py_max (-1)
                             (py_min 1 (1 - (l / 30 + p / 20 + j / 10) / 3))) / 2);
          explanation := e |}.
Proof.
  destruct fallback as (Hloaded & _ & Hdet & Hscaler).
  destruct (generate_anomaly_explanation_returns b t c p l j
              (Qltb 20 l || Qltb 15 p || Qltb 5 j)) as [e He].
  exists e.
  unfold detect_anomaly, dict_mem, getitem, scale_if_available.
  rewrite Hloaded, Hdet, Hscaler. simpl.
  unfold FallbackAnomalyDetector.predict, FallbackAnomalyDetector.predict_row. simpl.
  revert He.
  destruct (Qltb 20 l), (Qltb 15 p), (Qltb 5 j);
    cbn -[_generate_anomaly_explanation]; intros ->; reflexivity.
Qed.

(** C3 (as amended): under the fallback rules [is_anomaly] holds exactly
    when latency > 20 or packet_loss > 15 or jitter > 5; flag and score
    both grow with latency, packet loss and jitter (a vector that is at
    least as large in the three metrics scores at least as high and is
    flagged when the smaller one is); every flagged vector scores above
    1/12 and every vector that scores above 23/72 is flagged. *)
Theorem fallback_anomaly_flag_and_score (features features' : list Q) :
  valid_features features = true ->
  valid_features features' = true ->
  latency_of features <= latency_of features' ->
  packet_loss_of features <= packet_loss_of features' ->
  jitter_of features <= jitter_of features' ->
  exists r r',
    detect_anomaly self features = Ok r /\
    detect_anomaly self features' = Ok r' /\
    (is_anomaly r = true <->
     20 < latency_of features \/ 15 < packet_loss_of features \/
     5 < jitter_of features) /\
    anomaly_score r <= anomaly_score r' /\
    (is_anomaly r = true -> is_anomaly r' = true) /\
    (is_anomaly r = true -> 1 # 12 < anomaly_score r) /\
    (23 # 72 < anomaly_score r -> is_anomaly r = true).
Proof.
  intros Hvalid Hvalid'.
  destruct (valid_features_inv _ Hvalid)
    as (b & t & c & p & l & j & -> & Hb & Ht & Hc & Hp & Hl & Hj).
  destruct (valid_features_inv _ Hvalid')
    as (b' & t' & c' & p' & l' & j' & -> & Hb' & Ht' & Hc' & Hp' & Hl' & Hj').
  unfold latency_of, packet_loss_of, jitter_of. simpl.
  intros Hll Hpp Hjj.
  destruct (detect_anomaly_fallback_eq b t c p l j) as [e ->].
  destruct (detect_anomaly_fallback_eq b' t' c' p' l' j') as [e' ->].
  eexists. eexists. split; [reflexivity|]. split; [reflexivity|]. simpl.
  rewrite !orb_true_iff, !Qltb_lt.
  split; [tauto|].
  split; [split_min_max; qlra|].
  split; [intros [[H | H] | H]; lra|].
  split.
  - intros [[H | H] | H]; split_min_max; qlra.
  - intros Hscore.
    destruct (Qlt_le_dec 20 l) as [H1 | H1]; [tauto|].
    destruct (Qlt_le_dec 15 p) as [H2 | H2]; [tauto|].
    destruct (Qlt_le_dec 5 j) as [H3 | H3]; [tauto|].
    exfalso. revert Hscore. split_min_max; qlra.
Qed.

End FallbackAnomaly.

Lemma fallback_anomaly_flag_and_score_witness :
  exists r r',
    detect_anomaly fallback_predictor [100; 20; 10; 1; 5; 0.5] = Ok r /\
    detect_anomaly fallback_predictor [50; 5; 90; 8; 25; 6] = Ok r' /\
    (is_anomaly r = true <->
     20 < latency_of [100; 20; 10; 1; 5; 0.5] \/
     15 < packet_loss_of [100; 20; 10; 1; 5; 0.5] \/
     5 < jitter_of [100; 20; 10; 1; 5; 0.5]) /\
    anomaly_score r <= anomaly_score r' /\
    (is_anomaly r = true -> is_anomaly r' = true) /\
    (is_anomaly r = true -> 1 # 12 < anomaly_score r) /\
    (23 # 72 < anomaly_score r -> is_anomaly r = true).
Proof.
  apply (fallback_anomaly_flag_and_score fallback_predictor).
  - repeat split.
  - reflexivity.
  - reflexivity.
  - vm_compute. discriminate.
  - vm_compute. discriminate.
  - vm_compute. discriminate.
Defined.

(** C3 as stated fails: the valid vector with latency 21 and no packet loss
    or jitter is flagged and scores 7/60, the valid vector with latency 20,
    packet loss 15 and jitter 5 is not flagged and scores 23/72, which is
    higher. *)
Lemma fallback_flagged_scores_below_unflagged :
  valid_features [100; 20; 10; 0; 21; 0] = true /\
  valid_features [100; 20; 10; 15; 20; 5] = true /\
  exists r r',
    detect_anomaly fallback_predictor [100; 20; 10; 0; 21; 0] = Ok r /\
    detect_anomaly fallback_predictor [100; 20; 10; 15; 20; 5] = Ok r' /\
    is_anomaly r = true /\ is_anomaly r' = false /\
    anomaly_score r == 7 # 60 /\ anomaly_score r' == 23 # 72 /\
    anomaly_score r < anomaly_score r'.
Proof.
  split; [reflexivity|]. split; [reflexivity|].
  eexists. eexists.
  split; [vm_compute; reflexivity|].
  split; [vm_compute; reflexivity|].
  repeat split.
Qed.

(** ** The two end-to-end vectors under the fallback rules *)

Example healthy_vector_low_risk_not_anomalous :
  exists r a,
    predict_sla_violation fallback_predictor [100; 20; 10; 1; 5; 0.5] 0 = Ok r /\
    detect_anomaly fallback_predictor [100; 20; 10; 1; 5; 0.5] = Ok a /\
    prediction r = 0%Z /\ is_anomaly a = false /\
    explanation a = WithinNormalParameters.
Proof.
  eexists. eexists.
  split; [vm_compute; reflexivity|].
  split; [vm_compute; reflexivity|].
  repeat split.
Qed.

Example degraded_vector_high_risk_anomalous :
  exists r a,
    predict_sla_violation fallback_predictor [50; 5; 90; 8; 25; 6] 0 = Ok r /\
    detect_anomaly fallback_predictor [50; 5; 90; 8; 25; 6] = Ok a /\
    prediction r = 1%Z /\ is_anomaly a = true /\
    explanation a =
      Findings [HighLatency 25; HighPacketLoss 8; HighJitter 6;
                HighCongestion 90; LowThroughputEfficiency].
Proof.
  eexists. eexists.
  split; [vm_compute; reflexivity|].
  split; [vm_compute; reflexivity|].
  repeat split.
Qed.

(** ** Loading *)

Lemma dict_get_set_same {V} (d : dict V) (k : string) (v : V) :
  dict_get (dict_set d k v) k = Some v.
Proof.
  induction d as [|[k' v'] tl IH]; simpl.
  - now rewrite String.eqb_refl.
  - destruct (String.eqb k' k) eqn:E; simpl; rewrite E; [reflexivity | exact IH].
Qed.

Lemma dict_get_set_other {V} (d : dict V) (k k' : string) (v : V) :
  k <> k' -> dict_get (dict_set d k v) k' = dict_get d k'.
Proof.
  intros Hne. induction d as [|[k0 v0] tl IH]; simpl.
  - destruct (String.eqb_spec k k'); [contradiction | reflexivity].
  - destruct (String.eqb_spec k0 k) as [-> | Hk]; simpl.
    + destruct (String.eqb_spec k k'); [contradiction | reflexivity].
    + destruct (String.eqb k0 k'); [reflexivity | exact IH].
Qed.

(** What a successful [_create_fallback_models] leaves, whatever [self]
    held before. *)
Lemma create_fallback_models_ok (w : Env) (self : MLPredictor) :
  sklearn_importable w = true ->
  fst (_create_fallback_models w self) = Ok tt /\
  serves_fallback (snd (_create_fallback_models w self)) /\
  feature_names (snd (_create_fallback_models w self)) = default_feature_names.
Proof.
  intros Hsk. unfold _create_fallback_models, atry, abind. rewrite Hsk. simpl.
  split; [reflexivity|]. split; [|reflexivity].
  unfold serves_fallback. simpl. repeat split.
  - rewrite dict_get_set_other by discriminate. apply dict_get_set_same.
  - apply dict_get_set_same.
  - apply dict_get_set_same.
Qed.

Lemma create_fallback_models_never_raises (w : Env) (self : MLPredictor) :
  fst (_create_fallback_models w self) = Ok tt.
Proof.
  unfold _create_fallback_models, atry, abind.
  destruct (sklearn_importable w); reflexivity.
Qed.

(** No exception leaves [load_models]. *)
Lemma load_models_never_raises (w : Env) (self : MLPredictor) :
  fst (load_models w self) = Ok tt.
Proof.
  unfold load_models, atry.
  match goal with
  | |- fst (match ?body with _ => _ end) = _ => destruct body as [[[]|e] self'] eqn:E
  end.
  - reflexivity.
  - apply create_fallback_models_never_raises.
Qed.

Ltac solve_dict_get :=
  repeat first
    [ reflexivity
    | apply dict_get_set_same
    | rewrite dict_get_set_other by discriminate ].

Lemma load_models_installs_fallback_helper (w : Env) (self : MLPredictor) :
  models self = [] ->
  artifacts_unavailable w = true ->
  sklearn_importable w = true ->
  serves_fallback (loaded w self).
Proof.
  intros Hmodels Hunavailable Hsk.
  destruct self as [dir ms scs fns ld]. simpl in Hmodels. subst ms.
  destruct w as [d fn sla an sh sc sk]. simpl in Hsk. subst sk.
  unfold artifacts_unavailable in Hunavailable. simpl in Hunavailable.
  unfold loaded, serves_fallback.
  destruct d, fn, sla, an, sh, sc; try discriminate Hunavailable;
    cbn; repeat split; solve_dict_get.
Qed.

(** C5 (as amended): when the model directory is missing, or holds none of
    the three model files, or a file in it fails to load, [load_models] on
    a predictor that holds no models yet returns without raising; if the
    fallback classes can be created (the [sklearn] import of
    [_create_fallback_models] succeeds) it leaves the fallback predictor,
    detector and scaler installed, the default feature names and
    [models_loaded] true. *)
Theorem load_models_installs_fallback (w : Env) (self : MLPredictor) :
  models self = [] ->
  artifacts_unavailable w = true ->
  sklearn_importable w = true ->
  fst (load_models w self) = Ok tt /\
  serves_fallback (loaded w self) /\
  feature_names (loaded w self) = default_feature_names /\
  models_loaded (loaded w self) = true.
Proof.
  intros Hmodels Hunavailable Hsk.
  split; [apply load_models_never_raises|].
  destruct self as [dir ms scs fns ld]. simpl in Hmodels. subst ms.
  destruct w as [d fn sla an sh sc sk]. simpl in Hsk. subst sk.
  unfold artifacts_unavailable in Hunavailable. simpl in Hunavailable.
  unfold loaded, serves_fallback.
  destruct d, fn, sla, an, sh, sc; try discriminate Hunavailable;
    cbn; repeat split; solve_dict_get.
Qed.

Lemma load_models_installs_fallback_witness :
  fst (load_models no_model_dir (MLPredictor_init "backend/app/ml/models")) = Ok tt /\
  serves_fallback (loaded no_model_dir (MLPredictor_init "backend/app/ml/models")) /\
  feature_names (loaded no_model_dir (MLPredictor_init "backend/app/ml/models")) =
    default_feature_names /\
  models_loaded (loaded no_model_dir (MLPredictor_init "backend/app/ml/models")) = true.
Proof.
  apply (load_models_installs_fallback no_model_dir
           (MLPredictor_init "backend/app/ml/models")); reflexivity.
Defined.

(** C5 as stated fails where [sklearn] cannot be imported: with the model
    directory missing, [load_models] returns without raising, installs
    nothing and leaves [models_loaded] false. *)
Lemma load_models_without_sklearn_not_loaded :
  artifacts_unavailable no_model_dir_no_sklearn = true /\
  fst (load_models no_model_dir_no_sklearn
         (MLPredictor_init "backend/app/ml/models")) = Ok tt /\
  models (loaded no_model_dir_no_sklearn
            (MLPredictor_init "backend/app/ml/models")) = [] /\
  models_loaded (loaded no_model_dir_no_sklearn
                   (MLPredictor_init "backend/app/ml/models")) = false.
Proof. repeat split. Qed.

(** C9 fails on the code: on a directory that holds [feature_names.pkl] and
    no model file, the first [load_models] ends in the fallback and its
    default feature names, the second finds the fallback models of the
    first in [self.models], skips the fallback and keeps the names of the
    file. *)
Lemma load_models_twice_differs :
  let once := loaded only_feature_names_dir (MLPredictor_init "backend/app/ml/models") in
  let twice := loaded only_feature_names_dir once in
  info_feature_names (get_model_info once) = default_feature_names /\
  info_feature_names (get_model_info twice) = ["latency"; "jitter"] /\
  info_models_loaded (get_model_info once) = true /\
  info_models_loaded (get_model_info twice) = true /\
  available_models (get_model_info once) = available_models (get_model_info twice) /\
  get_model_info twice <> get_model_info once.
Proof.
  repeat split. vm_compute. discriminate.
Qed.

(** X11: On every other kind of model directory the second [load_models] changes
    nothing that [get_model_info] reports. *)
Lemma load_models_idempotent_unless_stale (w : Env) (dir : string) :
  stale_feature_names w = false ->
  get_model_info (loaded w (loaded w (MLPredictor_init dir))) =
  get_model_info (loaded w (MLPredictor_init dir)).
Proof.
  destruct w as [d fn sla an sh sc sk].
  unfold stale_feature_names, loaded. simpl.
  destruct d, fn as [| |names], sla, an, sh, sc, sk; simpl;
    try reflexivity;
    destruct (list_eq_dec string_dec names default_feature_names) as [-> | _];
    try discriminate; reflexivity.
Qed.

(** ** Explanations *)

Lemma simple_explanation_loop_returns (features : list Q)
    (pairs : list (string * Q)) :
  forall (i : nat) (acc : dict Q * list Q),
    (i + List.length pairs <= List.length features)%nat ->
    exists r, simple_explanation_loop features i pairs acc = Ok r.
Proof.
  induction pairs as [|[feature weight] tl IH]; intros i acc Hlen; simpl in *.
  - eexists; reflexivity.
  - unfold index.
    destruct (nth_error features i) as [value|] eqn:E.
    + simpl. apply IH. lia.
    + apply nth_error_None in E. lia.
Qed.

Lemma simple_explanation_loop_raises (features : list Q)
    (pairs : list (string * Q)) :
  forall (i : nat) (acc : dict Q * list Q) (e : exn),
    simple_explanation_loop features i pairs acc = Raise e -> e = IndexError.
Proof.
  induction pairs as [|[feature weight] tl IH]; intros i acc e; simpl.
  - discriminate.
  - unfold index. destruct (nth_error features i) as [value|]; simpl.
    + apply IH.
    + now intros [= <-].
Qed.

Lemma generate_simple_explanation_returns (self : MLPredictor) (features : list Q) :
  valid_features features = true ->
  exists r, _generate_simple_explanation self features = Ok r.
Proof.
  intros Hvalid.
  destruct (valid_features_inv _ Hvalid) as (b & t & c & p & l & j & -> & _).
  unfold _generate_simple_explanation.
  destruct (simple_explanation_loop_returns [b; t; c; p; l; j]
              (combine (feature_names self) importance_weights) 0 ([], []))
    as [r ->].
  - rewrite length_combine. simpl. lia.
  - eexists; reflexivity.
Qed.

Lemma generate_simple_explanation_raises (self : MLPredictor) (features : list Q)
    (e : exn) :
  _generate_simple_explanation self features = Raise e -> e = IndexError.
Proof.
  unfold _generate_simple_explanation.
  destruct (simple_explanation_loop _ _ _ _) as [r|e'] eqn:E; simpl.
  - discriminate.
  - intros [= <-]. eapply simple_explanation_loop_raises, E.
Qed.

(** A loaded predictor answers [explain_prediction] with the explanation of
    the explainer or with the fixed-weight heuristic. *)
Lemma explain_prediction_loaded (self : MLPredictor) (features : list Q) :
  models_loaded self = true ->
  (exists r, explain_prediction self features = Ok r) \/
  explain_prediction self features = _generate_simple_explanation self features.
Proof.
  intros Hloaded. unfold explain_prediction. rewrite Hloaded. simpl.
  destruct (dict_get (models self) "shap_explainer") as [explainer|].
  - match goal with
    | |- context [try_except ?body _] => destruct body as [r|e]
    end; simpl; [left; eexists; reflexivity | right; reflexivity].
  - right. destruct (_generate_simple_explanation self features); reflexivity.
Qed.

Lemma explain_prediction_returns (self : MLPredictor) (features : list Q) :
  models_loaded self = true ->
  valid_features features = true ->
  exists r, explain_prediction self features = Ok r.
Proof.
  intros Hloaded Hvalid.
  destruct (explain_prediction_loaded self features Hloaded) as [H | ->].
  - exact H.
  - now apply generate_simple_explanation_returns.
Qed.

(** C6 (as amended): with no SHAP explainer among the models of a loaded
    predictor that carries the six default feature names (what the fallback
    sets, and what a load without [feature_names.pkl] or with the file of
    the trainer sets), [explain_prediction] returns,
    for every valid feature vector, contributions keyed by exactly these
    six names in order, each equal to [min(value / 10, 1)] times the weight
    of its position in (0.10, 0.15, 0.20, 0.25, 0.25, 0.05), and base value
    0.5; the weights sum to 1 and none exceeds the 0.25 of packet_loss and
    latency. *)
Theorem explain_prediction_fixed_weights (self : MLPredictor) (features : list Q) :
  models_loaded self = true ->
  dict_get (models self) "shap_explainer" = None ->
  feature_names self = default_feature_names ->
  valid_features features = true ->
  exists e,
    explain_prediction self features = Ok e /\
    dict_keys (Explanation.feature_importance e) = default_feature_names /\
    Explanation.feature_importance e =
      combine default_feature_names (weighted_contributions features) /\
    Explanation.shap_values e = weighted_contributions features /\
    Explanation.base_value e = 0.5 /\
    importance_weights = [0.1; 0.15; 0.2; 0.25; 0.25; 0.05] /\
    Qsum importance_weights == 1 /\
    Forall (fun weight => weight <= 0.25) importance_weights /\
    dict_get (combine default_feature_names importance_weights) "packet_loss" = Some 0.25 /\
    dict_get (combine default_feature_names importance_weights) "latency" = Some 0.25.
Proof.
  intros Hloaded Hshap Hnames Hvalid.
  destruct (valid_features_inv _ Hvalid) as (b & t & c & p & l & j & -> & _).
  eexists. split.
  - unfold explain_prediction, _generate_simple_explanation.
    rewrite Hloaded, Hshap, Hnames. reflexivity.
  - repeat split.
    repeat constructor; vm_compute; discriminate.
Qed.

Lemma explain_prediction_fixed_weights_witness :
  exists e,
    explain_prediction fallback_predictor [100; 20; 10; 1; 5; 0.5] = Ok e /\
    dict_keys (Explanation.feature_importance e) = default_feature_names /\
    Explanation.feature_importance e =
      combine default_feature_names (weighted_contributions [100; 20; 10; 1; 5; 0.5]) /\
    Explanation.shap_values e = weighted_contributions [100; 20; 10; 1; 5; 0.5] /\
    Explanation.base_value e = 0.5 /\
    importance_weights = [0.1; 0.15; 0.2; 0.25; 0.25; 0.05] /\
    Qsum importance_weights == 1 /\
    Forall (fun weight => weight <= 0.25) importance_weights /\
    dict_get (combine default_feature_names importance_weights) "packet_loss" = Some 0.25 /\
    dict_get (combine default_feature_names importance_weights) "latency" = Some 0.25.
Proof.
  apply (explain_prediction_fixed_weights fallback_predictor); reflexivity.
Defined.

(** C6 as stated fails for a bundle that took its names from disk: after a
    load that found a predictor, no explainer and a [feature_names.pkl] with
    the two names latency and jitter, the heuristic answers with these two
    keys, not with the six feature names, and weighs the first two entries
    of the vector (bandwidth and throughput) under them. *)
Lemma custom_feature_names_change_the_keys :
  let self := loaded custom_names_dir (MLPredictor_init "backend/app/ml/models") in
  models_loaded self = true /\
  dict_get (models self) "shap_explainer" = None /\
  valid_features [100; 20; 10; 1; 5; 0.5] = true /\
  exists e,
    explain_prediction self [100; 20; 10; 1; 5; 0.5] = Ok e /\
    dict_keys (Explanation.feature_importance e) = ["latency"; "jitter"] /\
    dict_keys (Explanation.feature_importance e) <> default_feature_names /\
    Explanation.shap_values e = [py_min (100 / 10) 1 * 0.1; py_min (20 / 10) 1 * 0.15].
Proof.
  split; [reflexivity|]. split; [reflexivity|]. split; [reflexivity|].
  eexists. split; [reflexivity|].
  split; [reflexivity|]. split; [discriminate | reflexivity].
Qed.

(** ** The not-loaded guard *)

(** C4 (as amended): [predict_sla_violation] and [detect_anomaly] raise
    their not-loaded [ValueError] whenever [models_loaded] is false or their
    model is absent from [models]; [explain_prediction] raises it exactly
    when [models_loaded] is false; with the fallback bank installed all
    three return a result on every valid feature vector. *)
Theorem not_loaded_guard (self : MLPredictor) (features : list Q) (rnd : Q) :
  (models_loaded self = false \/ dict_mem (models self) "sla_predictor" = false ->
   predict_sla_violation self features rnd =
     Raise (ValueError "SLA predictor model not loaded")) /\
  (models_loaded self = false \/ dict_mem (models self) "anomaly_detector" = false ->
   detect_anomaly self features =
     Raise (ValueError "Anomaly detector model not loaded")) /\
  (explain_prediction self features = Raise (ValueError "Models not loaded") <->
   models_loaded self = false) /\
  (serves_fallback self -> valid_features features = true ->
   (exists r, predict_sla_violation self features rnd = Ok r) /\
   (exists r, detect_anomaly self features = Ok r) /\
   (exists r, explain_prediction self features = Ok r)).
Proof.
  split; [|split; [|split]].
  - unfold predict_sla_violation. intros [-> | ->]; [reflexivity|].
    now rewrite orb_true_r.
  - unfold detect_anomaly. intros [-> | ->]; [reflexivity|].
    now rewrite orb_true_r.
  - split.
    + destruct (models_loaded self) eqn:Hloaded; [|reflexivity].
      intros Hraise. exfalso.
      destruct (explain_prediction_loaded self features Hloaded) as [[r Hr] | Hsimple].
      * rewrite Hr in Hraise. discriminate.
      * rewrite Hsimple in Hraise.
        apply generate_simple_explanation_raises in Hraise. discriminate.
    + unfold explain_prediction. now intros ->.
  - intros Hfallback Hvalid.
    destruct (valid_features_inv _ Hvalid) as (b & t & c & p & l & j & Heq & _).
    split; [|split].
    + subst features. eexists.
      apply (predict_sla_violation_fallback_eq self Hfallback).
    + subst features.
      destruct (detect_anomaly_fallback_eq self Hfallback b t c p l j) as [e He].
      eexists. exact He.
    + apply explain_prediction_returns; [apply Hfallback | exact Hvalid].
Qed.

Lemma not_loaded_guard_witness :
  predict_sla_violation (MLPredictor_init "backend/app/ml/models")
    [100; 20; 10; 1; 5; 0.5] 0 =
    Raise (ValueError "SLA predictor model not loaded") /\
  (exists r, predict_sla_violation fallback_predictor [100; 20; 10; 1; 5; 0.5] 0 = Ok r) /\
  (exists r, detect_anomaly fallback_predictor [100; 20; 10; 1; 5; 0.5] = Ok r) /\
  (exists r, explain_prediction fallback_predictor [100; 20; 10; 1; 5; 0.5] = Ok r).
Proof.
  split.
  - apply (not_loaded_guard (MLPredictor_init "backend/app/ml/models")
             [100; 20; 10; 1; 5; 0.5] 0).
    left. reflexivity.
  - apply (not_loaded_guard fallback_predictor [100; 20; 10; 1; 5; 0.5] 0).
    + repeat split.
    + reflexivity.
Defined.

(** C4 as stated fails after a trained load that found only part of the
    artifacts: with [shap_explainer.pkl] alone in the model directory,
    [load_models] completes with [models_loaded] true and the two
    prediction methods still raise their not-loaded error. *)
Lemma partial_load_still_raises :
  let self := loaded only_explainer_dir (MLPredictor_init "backend/app/ml/models") in
  fst (load_models only_explainer_dir (MLPredictor_init "backend/app/ml/models")) = Ok tt /\
  models_loaded self = true /\
  dict_keys (models self) = ["shap_explainer"] /\
  valid_features [100; 20; 10; 1; 5; 0.5] = true /\
  predict_sla_violation self [100; 20; 10; 1; 5; 0.5] 0 =
    Raise (ValueError "SLA predictor model not loaded") /\
  detect_anomaly self [100; 20; 10; 1; 5; 0.5] =
    Raise (ValueError "Anomaly detector model not loaded").
Proof. repeat split. Qed.

(** ** Confidence, errors and determinism of the risk prediction *)

(** C7 (as amended): whatever classifier is loaded, trained or fallback,
    once it answers [predict] and [predict_proba] the reported confidence is
    [0.85 + u * 0.1] for the number [u] drawn from [[0, 1)], hence a value
    of [[0.85, 0.95]]; the fallback goes through the same statement and
    reports no fixed value. *)
Theorem confidence_is_simulated
    (self : MLPredictor) (features : list Q) (rnd : Q) (model : PyModel)
    (model_predict : list (list Q) -> result (list Z))
    (model_predict_proba : list (list Q) -> result (list (list Q)))
    (label : Z) (labels : list Z) (p0 p1 : Q) (ps : list Q) (rows : list (list Q)) :
  0 <= rnd < 1 ->
  models_loaded self = true ->
  dict_get (models self) "sla_predictor" = Some model ->
  predict model = Some model_predict ->
  model_predict [features] = Ok (label :: labels) ->
  predict_proba model = Some model_predict_proba ->
  model_predict_proba [features] = Ok ((p0 :: p1 :: ps) :: rows) ->
  exists r,
    predict_sla_violation self features rnd = Ok r /\
    prediction r = label /\
    probability r = p1 /\
    confidence r = 0.85 + rnd * 0.1 /\
    0.85 <= confidence r <= 0.95.
Proof.
  intros Hrnd Hloaded Hmodel Hpredict Hlabels Hproba Hprobs.
  eexists. split.
  - unfold predict_sla_violation, dict_mem, getitem.
    rewrite Hloaded, Hmodel. simpl.
    rewrite Hpredict. simpl. rewrite Hlabels. simpl.
    rewrite Hproba, Hprobs. simpl. reflexivity.
  - simpl. repeat split; lra.
Qed.

Lemma confidence_is_simulated_witness :
  exists r,
    predict_sla_violation fallback_predictor [100; 20; 10; 1; 5; 0.5] 0.5 = Ok r /\
    prediction r = 0%Z /\
    probability r = (py_min (5 / 20) 1 + py_min (1 / 10) 1 + py_max 0 ((2 - 20) / 2)) / 3 /\
    confidence r = 0.85 + 0.5 * 0.1 /\
    0.85 <= confidence r <= 0.95.
Proof.
  apply (confidence_is_simulated fallback_predictor [100; 20; 10; 1; 5; 0.5] 0.5
           FallbackSLAPredictor.new
           FallbackSLAPredictor.predict FallbackSLAPredictor.predict_proba
           0%Z []
           (1 - (py_min (5 / 20) 1 + py_min (1 / 10) 1 + py_max 0 ((2 - 20) / 2)) / 3)
           ((py_min (5 / 20) 1 + py_min (1 / 10) 1 + py_max 0 ((2 - 20) / 2)) / 3)
           [] []);
    try reflexivity.
  split; vm_compute; [discriminate | reflexivity].
Defined.

(** C7 as stated fails for the fallback: on the same valid vector the
    fallback predictor reports confidence 0.85 for the draw 0 and 0.9 for
    the draw 1/2. *)
Lemma fallback_confidence_not_fixed :
  valid_features [100; 20; 10; 1; 5; 0.5] = true /\
  exists r r',
    predict_sla_violation fallback_predictor [100; 20; 10; 1; 5; 0.5] 0 = Ok r /\
    predict_sla_violation fallback_predictor [100; 20; 10; 1; 5; 0.5] 0.5 = Ok r' /\
    confidence r == 0.85 /\ confidence r' == 0.9 /\
    ~ confidence r == confidence r'.
Proof.
  split; [reflexivity|].
  eexists. eexists.
  split; [vm_compute; reflexivity|].
  split; [vm_compute; reflexivity|].
  repeat split. vm_compute. discriminate.
Qed.




(** C10: two calls of [predict_sla_violation] on the same predictor and the
    same feature vector end alike, whatever numbers the two calls draw for
    the confidence: both return, with the same label and the same
    probability, or both raise the same exception; the confidence differs
    with the draw. *)
Theorem predict_sla_violation_deterministic
    (self : MLPredictor) (features : list Q) (rnd rnd' : Q) :
  match predict_sla_violation self features rnd,
        predict_sla_violation self features rnd' with
  | Ok r, Ok r' =>
      prediction r = prediction r' /\ probability r = probability r' /\
      (confidence r == confidence r' <-> rnd == rnd')
  | Raise e, Raise e' => e = e'
  | _, _ => False
  end.
Proof.
  unfold predict_sla_violation.
  destruct (negb (models_loaded self) || negb (dict_mem (models self) "sla_predictor"));
    [reflexivity|].
  unfold try_except.
  destruct (getitem (models self) "sla_predictor") as [model|]; simpl; [|reflexivity].
  destruct (call "predict" (predict model)) as [f|]; simpl; [|reflexivity].
  destruct (f [features]) as [predictions|]; simpl; [|reflexivity].
  destruct (index predictions 0) as [label|]; simpl; [|reflexivity].
  destruct (predict_proba model) as [g|]; simpl.
  - destruct (g [features]) as [all_probabilities|]; simpl; [|reflexivity].
    destruct (index all_probabilities 0) as [probabilities|]; simpl; [|reflexivity].
    destruct (index probabilities 1) as [p|]; simpl; [|reflexivity].
    repeat split; intros H; lra.
  - repeat split; intros H; lra.
Qed.

(** * Further properties of the predictor *)

(** ** Feature vectors of the wrong length *)

Lemma predict_sla_violation_fallback_long (self : MLPredictor)
    (b t c p l rnd : Q) (rest : list Q) :
  serves_fallback self ->
  predict_sla_violation self (b :: t :: c :: p :: l :: rest) rnd =
  Ok {| prediction :=
          if Qltb 10 l then 1 else if Qltb 5 p then 1 else if Qltb t 1 then 1 else 0;
        probability :=
          (py_min (l / 20) 1 + py_min (p / 10) 1 + py_max 0 ((2 - t) / 2)) / 3;
        confidence := 0.85 + rnd * 0.1;
        model_version := "v1.0" |}.
Proof.
  intros (Hloaded & Hsla & _).
  unfold predict_sla_violation, dict_mem, getitem.
  rewrite Hloaded, Hsla. simpl.
  unfold FallbackSLAPredictor.predict, FallbackSLAPredictor.predict_row. simpl.
  destruct (Qltb 10 l); [reflexivity|].
  destruct (Qltb 5 p); [reflexivity|].
  destruct (Qltb t 1); reflexivity.
Qed.

(** X1: The fallback predictor does not check the length of the vector: it
    answers as soon as the vector has the five entries up to the latency
    and raises [IndexError] on anything shorter. *)
Theorem fallback_predict_wants_five_entries
    (self : MLPredictor) (features : list Q) (rnd : Q) :
  serves_fallback self ->
  ((5 <= List.length features)%nat ->
   exists r, predict_sla_violation self features rnd = Ok r) /\
  ((List.length features < 5)%nat ->
   predict_sla_violation self features rnd = Raise IndexError).
Proof.
  intros Hfallback. split; intros Hlen.
  - destruct features as [|b [|t [|c [|p [|l rest]]]]]; simpl in Hlen; try lia.
    eexists. apply predict_sla_violation_fallback_long. exact Hfallback.
  - destruct Hfallback as (Hloaded & Hsla & _).
    unfold predict_sla_violation, dict_mem, getitem.
    rewrite Hloaded, Hsla. simpl.
    destruct features as [|b [|t [|c [|p [|l rest]]]]]; simpl in Hlen; try lia;
      reflexivity.
Qed.

Lemma fallback_predict_wants_five_entries_witness :
  (exists r, predict_sla_violation fallback_predictor [100; 20; 10; 1; 5] 0 = Ok r) /\
  predict_sla_violation fallback_predictor [100; 20; 10; 1] 0 = Raise IndexError.
Proof.
  split.
  - apply (fallback_predict_wants_five_entries fallback_predictor [100; 20; 10; 1; 5] 0).
    + repeat split.
    + simpl. lia.
  - apply (fallback_predict_wants_five_entries fallback_predictor [100; 20; 10; 1] 0).
    + repeat split.
    + simpl. lia.
Defined.

Ltac unfold_fallback_detect Hloaded Hdet Hscaler :=
  unfold detect_anomaly, dict_mem, getitem, scale_if_available,
    _generate_anomaly_explanation;
  rewrite Hloaded, Hdet, Hscaler; simpl;
  unfold FallbackAnomalyDetector.predict, FallbackAnomalyDetector.predict_row,
    FallbackAnomalyDetector.decision_function,
    FallbackAnomalyDetector.decision_function_row; simpl.

(** X2: Under the fallback bank [detect_anomaly] raises [IndexError] on every
    vector with fewer than six entries.  A vector with more than six entries
    is scored like its first six as long as it is not flagged; when it is
    flagged, building the explanation fails on the unpacking of the vector
    and the method raises [ValueError]. *)
Theorem fallback_detect_on_wrong_length (self : MLPredictor) (features : list Q) :
  serves_fallback self ->
  ((List.length features < 6)%nat ->
   detect_anomaly self features = Raise IndexError) /\
  ((6 < List.length features)%nat ->
   (20 < latency_of features \/ 15 < packet_loss_of features \/
    5 < jitter_of features ->
    detect_anomaly self features =
      Raise (ValueError "wrong number of values to unpack")) /\
   (latency_of features <= 20 -> packet_loss_of features <= 15 ->
    jitter_of features <= 5 ->
    exists r,
      detect_anomaly self features = Ok r /\
      is_anomaly r = false /\
      explanation r = WithinNormalParameters)).
Proof.
  intros (Hloaded & _ & Hdet & Hscaler). split; intros Hlen.
  - destruct features as [|b [|t [|c [|p [|l [|j rest]]]]]]; simpl in Hlen; try lia;
      unfold_fallback_detect Hloaded Hdet Hscaler; try reflexivity.
    destruct (Qltb 20 l); [reflexivity|].
    destruct (Qltb 15 p); reflexivity.
  - destruct features as [|b [|t [|c [|p [|l [|j [|x rest]]]]]]]; simpl in Hlen; try lia.
    unfold latency_of, packet_loss_of, jitter_of. simpl.
    split.
    + intros Hflag.
      unfold_fallback_detect Hloaded Hdet Hscaler.
      destruct (Qltb_cases 20 l) as [[-> H1] | [-> H1]]; [reflexivity|].
      destruct (Qltb_cases 15 p) as [[-> H2] | [-> H2]]; [reflexivity|].
      destruct (Qltb_cases 5 j) as [[-> H3] | [-> H3]]; [reflexivity|].
      exfalso. destruct Hflag as [H | [H | H]]; lra.
    + intros H1 H2 H3.
      unfold_fallback_detect Hloaded Hdet Hscaler.
      apply Qltb_ge in H1, H2, H3. rewrite H1, H2, H3. simpl.
      eexists. repeat split.
Qed.

Lemma fallback_detect_on_wrong_length_witness :
  detect_anomaly fallback_predictor [100; 20; 10; 1; 5] = Raise IndexError /\
  detect_anomaly fallback_predictor [100; 20; 10; 1; 25; 0.5; 7] =
    Raise (ValueError "wrong number of values to unpack") /\
  exists r,
    detect_anomaly fallback_predictor [100; 20; 10; 1; 5; 0.5; 7] = Ok r /\
    is_anomaly r = false /\
    explanation r = WithinNormalParameters.
Proof.
  split; [|split].
  - apply (fallback_detect_on_wrong_length fallback_predictor [100; 20; 10; 1; 5]).
    + repeat split.
    + simpl. lia.
  - apply (fallback_detect_on_wrong_length fallback_predictor
             [100; 20; 10; 1; 25; 0.5; 7]).
    + repeat split.
    + simpl. lia.
    + left. reflexivity.
  - apply (fallback_detect_on_wrong_length fallback_predictor
             [100; 20; 10; 1; 5; 0.5; 7]).
    + repeat split.
    + simpl. lia.
    + vm_compute. discriminate.
    + vm_compute. discriminate.
    + vm_compute. discriminate.
Defined.

(** ** The explanation of a fallback anomaly *)

(** X3: Under the fallback bank the explanation of a valid vector is "within
    normal parameters" exactly when the vector is not flagged.  A flagged
    vector always gets a list of findings that names each threshold it
    tripped, so the generic "anomalous pattern" text is never returned:
    each of the detector's thresholds lies at or above the matching
    threshold of the explanation. *)
Theorem fallback_anomaly_is_always_explained (self : MLPredictor) (features : list Q) :
  serves_fallback self ->
  valid_features features = true ->
  exists r,
    detect_anomaly self features = Ok r /\
    explanation r <> AnomalousPattern /\
    (is_anomaly r = false <-> explanation r = WithinNormalParameters) /\
    (is_anomaly r = true ->
     exists findings,
       explanation r = Findings findings /\
       (20 < latency_of features ->
        In (HighLatency (latency_of features)) findings) /\
       (15 < packet_loss_of features ->
        In (HighPacketLoss (packet_loss_of features)) findings) /\
       (5 < jitter_of features ->
        In (HighJitter (jitter_of features)) findings)).
Proof.
  intros (Hloaded & _ & Hdet & Hscaler) Hvalid.
  destruct (valid_features_inv _ Hvalid) as (b & t & c & p & l & j & -> & _).
  unfold latency_of, packet_loss_of, jitter_of. simpl.
  unfold_fallback_detect Hloaded Hdet Hscaler.
  assert (H15 : 20 < l -> Qltb 15 l = true) by (intros H; apply Qltb_lt; lra).
  assert (H5 : 15 < p -> Qltb 5 p = true) by (intros H; apply Qltb_lt; lra).
  destruct (Qltb_cases 20 l) as [[-> H1] | [-> H1]]; simpl.
  - rewrite (H15 H1). simpl. eexists. split; [reflexivity|]. simpl.
    split; [discriminate|]. split; [split; discriminate|].
    intros _. eexists. split; [reflexivity|].
    split; [intros _; left; reflexivity|].
    split; intros H.
    + rewrite (H5 H). simpl. right. left. reflexivity.
    + apply Qltb_lt in H. rewrite H.
      destruct (Qltb 5 p); simpl; auto.
  - destruct (Qltb_cases 15 p) as [[-> H2] | [-> H2]]; simpl.
    + rewrite (H5 H2). simpl.
      destruct (Qltb 15 l); simpl;
        (eexists; split; [reflexivity|]; simpl;
         split; [discriminate|]; split; [split; discriminate|];
         intros _; eexists; split; [reflexivity|];
         split; [intros H; lra|];
         split; intros H;
         [ simpl; auto
         | apply Qltb_lt in H; rewrite H; simpl; auto ]).
    + destruct (Qltb_cases 5 j) as [[-> H3] | [-> H3]]; simpl.
      * destruct (Qltb 15 l), (Qltb 5 p); simpl;
          (eexists; split; [reflexivity|]; simpl;
           split; [discriminate|]; split; [split; discriminate|];
           intros _; eexists; split; [reflexivity|];
           split; [intros H; lra|];
           split; intros H; [lra | simpl; auto]).
      * eexists. split; [reflexivity|]. simpl.
        split; [discriminate|]. split; [split; reflexivity|discriminate].
Qed.

Lemma fallback_anomaly_is_always_explained_witness :
  exists r,
    detect_anomaly fallback_predictor [50; 5; 90; 8; 25; 6] = Ok r /\
    explanation r <> AnomalousPattern /\
    (is_anomaly r = false <-> explanation r = WithinNormalParameters) /\
    (is_anomaly r = true ->
     exists findings,
       explanation r = Findings findings /\
       (20 < latency_of [50; 5; 90; 8; 25; 6] ->
        In (HighLatency (latency_of [50; 5; 90; 8; 25; 6])) findings) /\
       (15 < packet_loss_of [50; 5; 90; 8; 25; 6] ->
        In (HighPacketLoss (packet_loss_of [50; 5; 90; 8; 25; 6])) findings) /\
       (5 < jitter_of [50; 5; 90; 8; 25; 6] ->
        In (HighJitter (jitter_of [50; 5; 90; 8; 25; 6])) findings)).
Proof.
  apply (fallback_anomaly_is_always_explained fallback_predictor).
  - repeat split.
  - reflexivity.
Defined.

(** ** Explanations: short vectors and the explainer path *)

(** X4: The fixed-weight heuristic reads one entry of the vector per weight and
    does not check the length either: with the six default names it
    answers on every vector of at least six entries (further entries are
    ignored) and raises [IndexError] on a shorter one, also out of the
    handler of [explain_prediction]. *)
Theorem heuristic_explanation_wants_six_entries
    (self : MLPredictor) (features : list Q) :
  models_loaded self = true ->
  dict_get (models self) "shap_explainer" = None ->
  feature_names self = default_feature_names ->
  ((6 <= List.length features)%nat ->
   exists e,
     explain_prediction self features = Ok e /\
     dict_keys (Explanation.feature_importance e) = default_feature_names /\
     Explanation.shap_values e = weighted_contributions features) /\
  ((List.length features < 6)%nat ->
   explain_prediction self features = Raise IndexError).
Proof.
  intros Hloaded Hshap Hnames.
  unfold explain_prediction, _generate_simple_explanation.
  rewrite Hloaded, Hshap, Hnames.
  split; intros Hlen;
    destruct features as [|b [|t [|c [|p [|l [|j rest]]]]]]; simpl in Hlen; try lia;
    try reflexivity.
  eexists. split; [reflexivity|]. split; [reflexivity|].
  destruct rest; reflexivity.
Qed.

Lemma heuristic_explanation_wants_six_entries_witness :
  (exists e,
     explain_prediction fallback_predictor [100; 20; 10; 1; 5; 0.5; 7] = Ok e /\
     dict_keys (Explanation.feature_importance e) = default_feature_names /\
     Explanation.shap_values e = weighted_contributions [100; 20; 10; 1; 5; 0.5; 7]) /\
  explain_prediction fallback_predictor [100; 20; 10; 1; 5] = Raise IndexError.
Proof.
  split.
  - apply (heuristic_explanation_wants_six_entries fallback_predictor
             [100; 20; 10; 1; 5; 0.5; 7]); try reflexivity.
    simpl. lia.
  - apply (heuristic_explanation_wants_six_entries fallback_predictor
             [100; 20; 10; 1; 5]); try reflexivity.
    simpl. lia.
Defined.

Lemma dict_get_app {V} (d d' : dict V) (k : string) :
  dict_get (d ++ d')%list k =
  match dict_get d k with
  | Some v => Some v
  | None => dict_get d' k
  end.
Proof.
  induction d as [|[k0 v0] tl IH]; simpl; [reflexivity|].
  destruct (String.eqb k0 k); [reflexivity | exact IH].
Qed.

Lemma dict_set_fresh {V} (d : dict V) (k : string) (v : V) :
  dict_get d k = None -> dict_set d k v = (d ++ [(k, v)])%list.
Proof.
  induction d as [|[k0 v0] tl IH]; simpl; [reflexivity|].
  destruct (String.eqb k0 k); [discriminate|].
  intros H. now rewrite IH.
Qed.

Lemma dict_of_zip_from {V} (ks : list string) :
  forall (vs : list V) (acc : dict V),
    NoDup ks ->
    (forall k, In k ks -> dict_get acc k = None) ->
    fold_left (fun d kv => dict_set d (fst kv) (snd kv)) (combine ks vs) acc =
    (acc ++ combine ks vs)%list.
Proof.
  induction ks as [|k ks IH]; intros vs acc Hnodup Hfresh; simpl.
  - now rewrite app_nil_r.
  - destruct vs as [|v vs]; simpl; [now rewrite app_nil_r|].
    inversion Hnodup as [|? ? Hnotin Hnodup']; subst.
    rewrite dict_set_fresh by (apply Hfresh; now left).
    rewrite IH; trivial.
    + now rewrite <- app_assoc.
    + intros k' Hin. rewrite dict_get_app, Hfresh by now right.
      simpl. destruct (String.eqb_spec k k') as [-> | _]; [contradiction | reflexivity].
Qed.

(** [dict(zip(names, values))] pairs the names with the values in order, up
    to the shorter of the two, when the names are distinct. *)
Lemma dict_of_zip_distinct {V} (ks : list string) (vs : list V) :
  NoDup ks -> dict_of_zip ks vs = combine ks vs.
Proof.
  intros Hnodup. unfold dict_of_zip.
  now rewrite dict_of_zip_from.
Qed.

(** X5: With a SHAP explainer in the bundle whose [shap_values] answers,
    [explain_prediction] reports row 0 of class 1 (of the array itself when
    the answer is no list), pairs it with the feature names in order, and
    takes the base value from the explainer; when the answer has no such
    row (a list with a single class, an empty array) the [IndexError] is
    swallowed and the fixed-weight heuristic answers instead. *)
Theorem explain_prediction_reads_explainer
    (self : MLPredictor) (features : list Q) (explainer : PyModel)
    (explainer_shap_values : list (list Q) -> result shap_output)
    (out : shap_output) :
  models_loaded self = true ->
  dict_get (models self) "shap_explainer" = Some explainer ->
  shap_values explainer = Some explainer_shap_values ->
  explainer_shap_values [features] = Ok out ->
  (forall row base,
     explained_row out = Ok row ->
     expected_value explainer = Some base ->
     NoDup (feature_names self) ->
     explain_prediction self features =
       Ok {| Explanation.feature_importance := combine (feature_names self) row;
             Explanation.shap_values := row;
             Explanation.base_value := base |}) /\
  (forall e,
     explained_row out = Raise e ->
     explain_prediction self features = _generate_simple_explanation self features).
Proof.
  intros Hloaded Hexplainer Hshap Hout.
  unfold explain_prediction. rewrite Hloaded, Hexplainer.
  cbn -[dict_of_zip]. rewrite Hshap. cbn -[dict_of_zip]. rewrite Hout.
  split.
  - intros row base Hrow Hbase Hnodup.
    destruct out as [per_class | values]; cbn -[dict_of_zip] in Hrow |- *.
    + destruct (index per_class 1) as [values|]; cbn -[dict_of_zip] in Hrow |- *;
        [|discriminate].
      rewrite Hrow. cbn -[dict_of_zip]. rewrite Hbase. cbn -[dict_of_zip].
      now rewrite dict_of_zip_distinct.
    + rewrite Hrow. cbn -[dict_of_zip]. rewrite Hbase. cbn -[dict_of_zip].
      now rewrite dict_of_zip_distinct.
  - intros e Hrow.
    destruct out as [per_class | values]; cbn -[dict_of_zip] in Hrow |- *.
    + destruct (index per_class 1) as [values|]; cbn -[dict_of_zip] in Hrow |- *.
      * rewrite Hrow. reflexivity.
      * reflexivity.
    + rewrite Hrow. reflexivity.
Qed.

Lemma default_feature_names_distinct : NoDup default_feature_names.
Proof.
  unfold default_feature_names.
  repeat constructor; simpl; intuition discriminate.
Qed.

Lemma explain_prediction_reads_explainer_witness :
  explain_prediction
    (loaded unreadable_scaler_dir (MLPredictor_init "backend/app/ml/models"))
    [100; 20; 10; 1; 5; 0.5] =
  Ok {| Explanation.feature_importance :=
          combine default_feature_names [0.1; 0.2; 0; 0; 0.3; 0];
        Explanation.shap_values := [0.1; 0.2; 0; 0; 0.3; 0];
        Explanation.base_value := 0.4 |}.
Proof.
  refine (proj1 (explain_prediction_reads_explainer
            (loaded unreadable_scaler_dir (MLPredictor_init "backend/app/ml/models"))
            [100; 20; 10; 1; 5; 0.5] constant_explainer _ _
            eq_refl eq_refl eq_refl eq_refl)
          [0.1; 0.2; 0; 0; 0.3; 0] 0.4 eq_refl eq_refl _).
  repeat constructor; simpl; intuition discriminate.
Defined.

(** ** What [load_models] leaves *)

(** X6: A load that meets no failure and finds at least one model file installs
    exactly what is stored: each model and the scaler that is on disk, no
    fallback in the place of a missing one, the names of
    [feature_names.pkl] or else the default six, and [models_loaded] true. *)
Theorem trained_load_installs_what_is_stored (w : Env) (dir : string) :
  artifacts_unavailable w = false ->
  models_loaded (loaded w (MLPredictor_init dir)) = true /\
  dict_get (models (loaded w (MLPredictor_init dir))) "sla_predictor" =
    stored (sla_predictor_pkl w) /\
  dict_get (models (loaded w (MLPredictor_init dir))) "anomaly_detector" =
    stored (anomaly_detector_pkl w) /\
  dict_get (models (loaded w (MLPredictor_init dir))) "shap_explainer" =
    stored (shap_explainer_pkl w) /\
  dict_get (scalers (loaded w (MLPredictor_init dir))) "standard" =
    stored (scaler_standard_pkl w) /\
  feature_names (loaded w (MLPredictor_init dir)) =
    match stored (feature_names_pkl w) with
    | Some names => names
    | None => default_feature_names
    end.
Proof.
  destruct w as [d fn sla an sh sc sk].
  unfold artifacts_unavailable, loaded. simpl.
  destruct d, fn, sla, an, sh, sc; simpl; try discriminate;
    intros _; repeat split.
Qed.

Lemma trained_load_installs_what_is_stored_witness :
  models_loaded (loaded two_models_dir (MLPredictor_init "backend/app/ml/models")) = true /\
  dict_get (models (loaded two_models_dir (MLPredictor_init "backend/app/ml/models")))
    "sla_predictor" = Some failing_model /\
  dict_get (models (loaded two_models_dir (MLPredictor_init "backend/app/ml/models")))
    "anomaly_detector" = Some failing_model /\
  dict_get (models (loaded two_models_dir (MLPredictor_init "backend/app/ml/models")))
    "shap_explainer" = None /\
  dict_get (scalers (loaded two_models_dir (MLPredictor_init "backend/app/ml/models")))
    "standard" = None /\
  feature_names (loaded two_models_dir (MLPredictor_init "backend/app/ml/models")) =
    default_feature_names.
Proof.
  apply (trained_load_installs_what_is_stored two_models_dir
           "backend/app/ml/models").
  reflexivity.
Defined.

(** X7: When the scaler file is the one that fails to load, the explainer that
    was read before it stays in the bundle: the fallback replaces the
    predictor, the detector and the scaler, and explanations keep coming
    from the trained explainer. *)
Theorem late_failure_keeps_trained_explainer
    (w : Env) (dir : string) (explainer : PyModel) (e : exn) :
  dir_exists w = true ->
  sklearn_importable w = true ->
  is_corrupt (feature_names_pkl w) = false ->
  is_corrupt (sla_predictor_pkl w) = false ->
  is_corrupt (anomaly_detector_pkl w) = false ->
  shap_explainer_pkl w = Stored explainer ->
  scaler_standard_pkl w = Corrupt e ->
  serves_fallback (loaded w (MLPredictor_init dir)) /\
  dict_get (models (loaded w (MLPredictor_init dir))) "shap_explainer" =
    Some explainer /\
  feature_names (loaded w (MLPredictor_init dir)) = default_feature_names.
Proof.
  destruct w as [d fn sla an sh sc sk]. unfold loaded. simpl.
  intros -> -> Hfn Hsla Han -> ->.
  destruct fn, sla, an; simpl in *; try discriminate; repeat split.
Qed.

Lemma late_failure_keeps_trained_explainer_witness :
  serves_fallback
    (loaded unreadable_scaler_dir (MLPredictor_init "backend/app/ml/models")) /\
  dict_get
    (models (loaded unreadable_scaler_dir (MLPredictor_init "backend/app/ml/models")))
    "shap_explainer" = Some constant_explainer /\
  feature_names
    (loaded unreadable_scaler_dir (MLPredictor_init "backend/app/ml/models")) =
    default_feature_names.
Proof.
  apply (late_failure_keeps_trained_explainer unreadable_scaler_dir
           "backend/app/ml/models" constant_explainer
           (RuntimeError "unpickling failure")); reflexivity.
Defined.

(** X8: [get_model_info] does not tell a trained bundle from the fallback: a
    directory with a predictor and a detector, no explainer and the default
    feature names gives the same report as no directory at all. *)
Theorem model_info_hides_fallback
    (w : Env) (dir : string) (sla an : PyModel) :
  dir_exists w = true ->
  feature_names_pkl w = Missing \/ feature_names_pkl w = Stored default_feature_names ->
  sla_predictor_pkl w = Stored sla ->
  anomaly_detector_pkl w = Stored an ->
  shap_explainer_pkl w = Missing ->
  is_corrupt (scaler_standard_pkl w) = false ->
  get_model_info (loaded w (MLPredictor_init dir)) =
  get_model_info (loaded no_model_dir (MLPredictor_init dir)).
Proof.
  destruct w as [d fn sla' an' sh sc sk]. unfold loaded. simpl.
  intros -> Hfn -> -> -> Hsc.
  destruct Hfn as [-> | ->]; destruct sc; simpl in *; try discriminate; reflexivity.
Qed.

Lemma model_info_hides_fallback_witness :
  get_model_info (loaded two_models_dir (MLPredictor_init "backend/app/ml/models")) =
  get_model_info (loaded no_model_dir (MLPredictor_init "backend/app/ml/models")).
Proof.
  apply (model_info_hides_fallback two_models_dir "backend/app/ml/models"
           failing_model failing_model); try reflexivity.
  left. reflexivity.
Defined.

Lemma models_loaded_flag (w : Env) (dir : string) :
  models_loaded (loaded w (MLPredictor_init dir)) =
    negb (artifacts_unavailable w) || sklearn_importable w /\
  (models_loaded (loaded w (MLPredictor_init dir)) = true ->
   models (loaded w (MLPredictor_init dir)) <> []).
Proof.
  destruct w as [d fn sla an sh sc sk].
  unfold artifacts_unavailable, loaded. simpl.
  destruct d, fn, sla, an, sh, sc, sk; simpl; split; try reflexivity;
    intros H; discriminate.
Qed.

(** X9: After [load_models] on a new predictor, [models_loaded] is false in one
    case only: the trained artifacts are unavailable and the fallback
    classes cannot be created.  Whenever the flag is true the bundle holds
    at least one model. *)
Theorem models_loaded_after_load (w : Env) (dir : string) :
  models_loaded (loaded w (MLPredictor_init dir)) =
    negb (artifacts_unavailable w) || sklearn_importable w /\
  (models_loaded (loaded w (MLPredictor_init dir)) = true ->
   models (loaded w (MLPredictor_init dir)) <> []).
Proof. apply models_loaded_flag. Qed.

(** ** Label and probability of the fallback predictor *)

(** X12: Although the fallback label is not a threshold on the probability, the
    two are not unrelated: on a valid vector a probability above 1/2 only
    comes with label 1, and a label 0 never comes with more than 1/2. *)
Theorem fallback_probability_bounds_by_label
    (self : MLPredictor) (features : list Q) (rnd : Q) :
  serves_fallback self ->
  valid_features features = true ->
  exists r,
    predict_sla_violation self features rnd = Ok r /\
    (1 # 2 < probability r -> prediction r = 1%Z) /\
    (prediction r = 0%Z -> probability r <= 1 # 2).
Proof.
  intros Hfallback Hvalid.
  destruct (valid_features_inv _ Hvalid)
    as (b & t & c & p & l & j & -> & Hb & Ht & Hc & Hp & Hl & Hj).
  eexists. split; [apply predict_sla_violation_fallback_long; exact Hfallback|].
  simpl.
  destruct (Qltb_cases 10 l) as [[-> H1] | [-> H1]].
  - repeat split; try discriminate.
  - destruct (Qltb_cases 5 p) as [[-> H2] | [-> H2]].
    + repeat split; try discriminate.
    + destruct (Qltb_cases t 1) as [[-> H3] | [-> H3]].
      * repeat split; try discriminate.
      * repeat split.
        -- intros H. exfalso. revert H. split_min_max; qlra.
        -- intros _. split_min_max; qlra.
Qed.

Lemma fallback_probability_bounds_by_label_witness :
  exists r,
    predict_sla_violation fallback_predictor [50; 5; 90; 8; 25; 6] 0 = Ok r /\
    (1 # 2 < probability r -> prediction r = 1%Z) /\
    (prediction r = 0%Z -> probability r <= 1 # 2).
Proof.
  apply (fallback_probability_bounds_by_label fallback_predictor).
  - repeat split.
  - reflexivity.
Defined.

(** X13: Worse metrics never lower the fallback risk: a valid vector with at
    least the latency and packet loss and at most the throughput of another
    gets at least its probability, and label 1 whenever the other has it. *)
Theorem fallback_risk_is_monotone
    (self : MLPredictor) (features features' : list Q) (rnd rnd' : Q) :
  serves_fallback self ->
  valid_features features = true ->
  valid_features features' = true ->
  latency_of features <= latency_of features' ->
  packet_loss_of features <= packet_loss_of features' ->
  throughput_of features' <= throughput_of features ->
  exists r r',
    predict_sla_violation self features rnd = Ok r /\
    predict_sla_violation self features' rnd' = Ok r' /\
    probability r <= probability r' /\
    (prediction r = 1%Z -> prediction r' = 1%Z).
Proof.
  intros Hfallback Hvalid Hvalid'.
  destruct (valid_features_inv _ Hvalid)
    as (b & t & c & p & l & j & -> & Hb & Ht & Hc & Hp & Hl & Hj).
  destruct (valid_features_inv _ Hvalid')
    as (b' & t' & c' & p' & l' & j' & -> & Hb' & Ht' & Hc' & Hp' & Hl' & Hj').
  unfold latency_of, packet_loss_of, throughput_of. simpl.
  intros Hll Hpp Htt.
  eexists. eexists.
  split; [apply predict_sla_violation_fallback_long; exact Hfallback|].
  split; [apply predict_sla_violation_fallback_long; exact Hfallback|].
  simpl. split.
  - split_min_max; qlra.
  - destruct (Qltb_cases 10 l') as [[-> H1] | [-> H1]]; [reflexivity|].
    destruct (Qltb_cases 5 p') as [[-> H2] | [-> H2]]; [reflexivity|].
    destruct (Qltb_cases t' 1) as [[-> H3] | [-> H3]]; [reflexivity|].
    destruct (Qltb_cases 10 l) as [[-> H4] | [-> H4]]; [lra|].
    destruct (Qltb_cases 5 p) as [[-> H5] | [-> H5]]; [lra|].
    destruct (Qltb_cases t 1) as [[-> H6] | [-> H6]]; [lra|].
    trivial.
Qed.

Lemma fallback_risk_is_monotone_witness :
  exists r r',
    predict_sla_violation fallback_predictor [100; 20; 10; 1; 5; 0.5] 0 = Ok r /\
    predict_sla_violation fallback_predictor [50; 5; 90; 8; 25; 6] 0.5 = Ok r' /\
    probability r <= probability r' /\
    (prediction r = 1%Z -> prediction r' = 1%Z).
Proof.
  apply (fallback_risk_is_monotone fallback_predictor).
  - repeat split.
  - reflexivity.
  - reflexivity.
  - vm_compute. discriminate.
  - vm_compute. discriminate.
  - vm_compute. discriminate.
Defined.

(** ** Nothing is ever removed from the bundle *)

Lemma dict_mem_set {V} (d : dict V) (k k' : string) (v : V) :
  dict_mem d k = true -> dict_mem (dict_set d k' v) k = true.
Proof.
  unfold dict_mem. intros H.
  destruct (string_dec k' k) as [-> | Hne].
  - now rewrite dict_get_set_same.
  - now rewrite dict_get_set_other.
Qed.

Section KeepsBundle.

Lemma keeps_aret {A} (a : A) : keeps_bundle (aret a).
Proof. intros self. split; trivial. Qed.

Lemma keeps_araise {A} (e : exn) : keeps_bundle (@araise A e).
Proof. intros self. split; trivial. Qed.

Lemma keeps_abind {A B} (c : action A) (k : A -> action B) :
  keeps_bundle c -> (forall a, keeps_bundle (k a)) -> keeps_bundle (abind c k).
Proof.
  intros Hc Hk self. unfold abind.
  destruct (Hc self) as [Hdir Hkeys].
  destruct (c self) as [[a | e] self']; simpl in *.
  - destruct (Hk a self') as [Hdir' Hkeys'].
    split; [congruence | auto].
  - split; assumption.
Qed.

Lemma keeps_atry {A} (body : action A) (handler : exn -> action A) :
  keeps_bundle body -> (forall e, keeps_bundle (handler e)) ->
  keeps_bundle (atry body handler).
Proof.
  intros Hbody Hhandler self. unfold atry.
  destruct (Hbody self) as [Hdir Hkeys].
  destruct (body self) as [[a | e] self']; simpl in *.
  - split; assumption.
  - destruct (Hhandler e self') as [Hdir' Hkeys'].
    split; [congruence | auto].
Qed.

Lemma keeps_for_each {A} (body : A -> action unit) (l : list A) :
  (forall x, keeps_bundle (body x)) -> keeps_bundle (for_each body l).
Proof.
  intros Hbody. induction l as [|x tl IH]; simpl.
  - apply keeps_aret.
  - apply keeps_abind; [apply Hbody | intros _; exact IH].
Qed.

Lemma keeps_set_model (name : string) (m : PyModel) :
  keeps_bundle (assign (fun self => set_models self (dict_set (models self) name m))).
Proof.
  intros self. simpl. split; [reflexivity|].
  intros k. apply dict_mem_set.
Qed.

Lemma keeps_set_scaler (name : string) (s : PyScaler) :
  keeps_bundle (assign (fun self => set_scalers self (dict_set (scalers self) name s))).
Proof. intros self. simpl. split; trivial. Qed.

Lemma keeps_set_feature_names (names : list string) :
  keeps_bundle (assign (fun self => set_feature_names self names)).
Proof. intros self. simpl. split; trivial. Qed.

Lemma keeps_set_models_loaded (b : bool) :
  keeps_bundle (assign (fun self => set_models_loaded self b)).
Proof. intros self. simpl. split; trivial. Qed.

Lemma keeps_create_fallback_models (w : Env) :
  keeps_bundle (_create_fallback_models w).
Proof.
  unfold _create_fallback_models.
  apply keeps_atry.
  - repeat (apply keeps_abind; [|intros _]).
    + destruct (sklearn_importable w); [apply keeps_aret | apply keeps_araise].
    + apply keeps_set_model.
    + apply keeps_set_model.
    + apply keeps_set_scaler.
    + apply keeps_set_feature_names.
    + apply keeps_set_models_loaded.
  - intros _. apply keeps_set_models_loaded.
Qed.

Lemma keeps_load_models (w : Env) : keeps_bundle (load_models w).
Proof.
  unfold load_models.
  apply keeps_atry; [|intros _; apply keeps_create_fallback_models].
  intros self.
  destruct (negb (dir_exists w)); [apply keeps_create_fallback_models|].
  revert self.
  change (keeps_bundle
    (abind
       match feature_names_pkl w with
       | Stored names => assign (fun self => set_feature_names self names)
       | Corrupt e => araise e
       | Missing => assign (fun self => set_feature_names self default_feature_names)
       end
       (fun _ =>
        abind
          (for_each (fun entry : string * string =>
             let (model_name, filename) := entry in
             match model_file w filename with
             | Stored m =>
                 assign (fun self =>
                   set_models self (dict_set (models self) model_name m))
             | Corrupt e => araise e
             | Missing => aret tt
             end) model_files)
          (fun _ =>
           abind
             (for_each (fun entry : string * string =>
                let (filename, scaler_name) := entry in
                match scaler_file w filename with
                | Stored s =>
                    assign (fun self =>
                      set_scalers self (dict_set (scalers self) scaler_name s))
                | Corrupt e => araise e
                | Missing => aret tt
                end) scaler_files)
             (fun _ self =>
              match models self with
              | [] => _create_fallback_models w self
              | _ :: _ => assign (fun self => set_models_loaded self true) self
              end))))).
  apply keeps_abind; [|intros _; apply keeps_abind; [|intros _; apply keeps_abind]].
  - destruct (feature_names_pkl w);
      [apply keeps_set_feature_names | apply keeps_araise | apply keeps_set_feature_names].
  - apply keeps_for_each. intros [model_name filename].
    destruct (model_file w filename);
      [apply keeps_aret | apply keeps_araise | apply keeps_set_model].
  - apply keeps_for_each. intros [filename scaler_name].
    destruct (scaler_file w filename);
      [apply keeps_aret | apply keeps_araise | apply keeps_set_scaler].
  - intros _ self.
    pose proof (keeps_create_fallback_models w self) as Hfallback.
    pose proof (keeps_set_models_loaded true self) as Htrained.
    revert Hfallback Htrained.
    destruct (models self); intros; assumption.
Qed.

End KeepsBundle.

(** X10: [load_models] only ever adds to the bundle: whatever state it starts
    from, every model that was in [models] before the call is still there
    after it (possibly replaced under the same key), whether the call ended
    in a trained load, in the fallback or in a swallowed failure; the model
    directory is never changed.  A predictor is therefore never brought
    back to the empty bundle by loading again. *)
Theorem load_models_never_drops_a_model (w : Env) (self : MLPredictor) (k : string) :
  dict_mem (models self) k = true ->
  dict_mem (models (loaded w self)) k = true /\
  model_dir (loaded w self) = model_dir self.
Proof.
  intros Hmem. destruct (keeps_load_models w self) as [Hdir Hkeys].
  split; [apply Hkeys; exact Hmem | exact Hdir].
Qed.

Lemma load_models_never_drops_a_model_witness :
  dict_mem (models (loaded only_explainer_dir fallback_predictor)) "sla_predictor" = true /\
  model_dir (loaded only_explainer_dir fallback_predictor) = model_dir fallback_predictor.
Proof.
  apply (load_models_never_drops_a_model only_explainer_dir fallback_predictor
           "sla_predictor").
  reflexivity.
Defined.

(** * Properties of the routes *)

Lemma validates_inv (telemetry : Schemas.TelemetryCreate) :
  Schemas.validates telemetry = true ->
  0 <= Schemas.bandwidth telemetry /\ 0 <= Schemas.throughput telemetry /\
  0 <= Schemas.congestion telemetry <= 100 /\
  0 <= Schemas.packet_loss telemetry <= 100 /\
  0 <= Schemas.latency telemetry /\ 0 <= Schemas.jitter telemetry.
Proof.
  unfold Schemas.validates, Schemas.within.
  rewrite !andb_true_iff, !Qle_bool_iff. tauto.
Qed.


Section RouteProperties.

Variable Db : Type.
Variable crud_create_telemetry :
  Db -> Schemas.TelemetryCreate -> result Schemas.Telemetry * Db.
Variable crud_get_telemetry_by_id : Db -> Z -> result (option Schemas.Telemetry).

(** X17: POST /predict-and-store/ never stores anything.  The record is rebuilt
    from [telemetry.dict()], which already has the key [sla_violation],
    together with the keyword [sla_violation]; the call raises [TypeError]
    and the route answers 500 whenever the prediction itself succeeded.
    So the route answers 503 or 500 on every request, leaves the database
    as it was and schedules no alert. *)
Theorem predict_and_store_never_stores
    (ml_predictor : option MLPredictor) (alert_service : bool)
    (telemetry : Schemas.TelemetryCreate) (db : Db) (rnd : Q) :
  exists reply,
    Main.predict_and_store Db crud_create_telemetry
      ml_predictor alert_service telemetry db rnd = (reply, db, []) /\
    (Main.models_unavailable ml_predictor = true ->
     reply = HTTPException 503 "ML models not available") /\
    (Main.models_unavailable ml_predictor = false ->
     reply = HTTPException 500 "Predict and store failed").
Proof.
  unfold Main.predict_and_store.
  destruct ml_predictor as [predictor|]; simpl.
  - destruct (models_loaded predictor); simpl.
    + destruct (predict_sla_violation predictor (Main.features_of telemetry) rnd)
        as [risk | e]; simpl;
        (eexists; split; [reflexivity|]; split; [discriminate | reflexivity]).
    + eexists. split; [reflexivity|]. split; [reflexivity | discriminate].
  - eexists. split; [reflexivity|]. split; [reflexivity | discriminate].
Qed.

(** X18: POST /telemetry/ never answers 400.  Its validation errors are
    raised inside a [try] whose only handler catches every exception, so
    they leave the route as 500.  Of the records that the schema lets
    through, the one kind that its checks refuse is a record with
    bandwidth 0 (the schema asks for at least 0, the route for more than
    0): it is answered 500 and not stored.  Every record with a positive
    bandwidth is handed to [crud.create_telemetry]. *)
Theorem create_telemetry_never_answers_400
    (telemetry : Schemas.TelemetryCreate) (db : Db) :
  Schemas.validates telemetry = true ->
  (forall detail,
     fst (Main.create_telemetry Db crud_create_telemetry telemetry db) <>
     HTTPException 400 detail) /\
  (Schemas.bandwidth telemetry == 0 ->
   Main.create_telemetry Db crud_create_telemetry telemetry db =
     (HTTPException 500 "Failed to create telemetry record", db)) /\
  (0 < Schemas.bandwidth telemetry ->
   Main.create_telemetry Db crud_create_telemetry telemetry db =
     (catch_all "Failed to create telemetry record"
        (lift (fst (crud_create_telemetry db telemetry))),
      snd (crud_create_telemetry db telemetry))).
Proof.
  intros Hschema.
  destruct (validates_inv telemetry Hschema) as (Hb & Ht & _ & Hp & Hl & _).
  unfold Main.create_telemetry.
  rewrite (proj2 (Qltb_ge (Schemas.latency telemetry) 0) Hl).
  rewrite (proj2 (Qltb_ge (Schemas.packet_loss telemetry) 0) (proj1 Hp)).
  rewrite (proj2 (Qltb_ge (Schemas.throughput telemetry) 0) Ht).
  simpl.
  destruct (Qle_bool (Schemas.bandwidth telemetry) 0) eqn:H0; simpl.
  - apply Qle_bool_iff in H0.
    split; [intros detail; discriminate|].
    split; [reflexivity | intros; lra].
  - assert (Hpos : 0 < Schemas.bandwidth telemetry).
    { apply Qnot_le_lt. intros H. apply Qle_bool_iff in H. congruence. }
    destruct (crud_create_telemetry db telemetry) as [[stored | e] db']; simpl;
      (split; [intros detail; discriminate|];
       split; [intros H; rewrite H in Hpos; lra | reflexivity]).
Qed.

(** X19: GET /explain/{id} cannot fail on a record that is there: once the
    models are loaded, whatever explainer the bundle holds and whatever it
    raises, the route answers 200 for every stored record; it answers 404
    exactly for a missing record and 500 only when the database query
    itself raises. *)
Theorem explain_route_answers_stored_records
    (predictor : MLPredictor) (telemetry_id : Z) (db : Db) (now : string) :
  models_loaded predictor = true ->
  match crud_get_telemetry_by_id db telemetry_id with
  | Ok (Some record) =>
      exists reply,
        Main.explain_prediction Db crud_get_telemetry_by_id
          (Some predictor) telemetry_id db now = Response reply /\
        ExplainReply.telemetry_id reply = telemetry_id
  | Ok None =>
      Main.explain_prediction Db crud_get_telemetry_by_id
        (Some predictor) telemetry_id db now =
      HTTPException 404 "Telemetry record not found"
  | Raise _ =>
      Main.explain_prediction Db crud_get_telemetry_by_id
        (Some predictor) telemetry_id db now =
      HTTPException 500 "Explanation failed"
  end.
Proof.
  intros Hloaded. unfold Main.explain_prediction. simpl. rewrite Hloaded. simpl.
  destruct (crud_get_telemetry_by_id db telemetry_id) as [[record|] | e];
    try reflexivity.
  destruct (explain_prediction_loaded predictor
              (Main.features_of (Schemas.data record)) Hloaded) as [[r Hr] | Hsimple].
  - rewrite Hr. eexists. split; reflexivity.
  - destruct (simple_explanation_loop_returns
                (Main.features_of (Schemas.data record))
                (combine (feature_names predictor) importance_weights) 0 ([], []))
      as [acc Hacc].
    + rewrite length_combine. simpl.
      apply Nat.le_trans with (m := List.length importance_weights);
        [apply Nat.le_min_r | simpl; lia].
    + rewrite Hsimple. unfold _generate_simple_explanation. rewrite Hacc. simpl.
      eexists. split; reflexivity.
Qed.

End RouteProperties.

Lemma create_telemetry_never_answers_400_witness :
  Main.create_telemetry unit insert_as_first zero_bandwidth_telemetry tt =
    (HTTPException 500 "Failed to create telemetry record", tt) /\
  Main.create_telemetry unit insert_as_first healthy_telemetry tt =
    (Response {| Schemas.id := 1; Schemas.data := healthy_telemetry |}, tt).
Proof.
  split.
  - apply (proj1 (proj2 (create_telemetry_never_answers_400 unit insert_as_first
                           zero_bandwidth_telemetry tt eq_refl))).
    reflexivity.
  - apply (proj2 (proj2 (create_telemetry_never_answers_400 unit insert_as_first
                           healthy_telemetry tt eq_refl))).
    reflexivity.
Defined.

Lemma explain_route_answers_stored_records_witness :
  exists reply,
    Main.explain_prediction unit one_row_table (Some fallback_predictor) 7 tt
      "2024-01-01T00:00:00" = Response reply /\
    ExplainReply.telemetry_id reply = 7%Z.
Proof.
  exact (explain_route_answers_stored_records unit one_row_table
           fallback_predictor 7 tt "2024-01-01T00:00:00" eq_refl).
Defined.

(** X14: On the records that the schema lets through, POST /predict/
    answers 503 exactly when there is no predictor or its [models_loaded]
    is false and 500 exactly when the predictor raised, which includes its
    own not-loaded error for a loaded bundle without the [sla_predictor]
    model; it never answers 400, since the schema has already refused the
    negative values that the route checks for.  A response carries the
    label and probability of the predictor unchanged. *)
Theorem predict_route_status
    (ml_predictor : option MLPredictor) (telemetry : Schemas.TelemetryCreate)
    (rnd : Q) (now : string) :
  Schemas.validates telemetry = true ->
  match Main.predict_sla_violation ml_predictor telemetry rnd now with
  | Response reply =>
      exists predictor risk,
        ml_predictor = Some predictor /\ models_loaded predictor = true /\
        predict_sla_violation predictor (Main.features_of telemetry) rnd = Ok risk /\
        PredictReply.sla_violation reply = prediction risk /\
        PredictReply.risk_score reply = probability risk
  | HTTPException status_code detail =>
      (status_code = 503%Z /\ Main.models_unavailable ml_predictor = true) \/
      (status_code = 500%Z /\
       exists predictor e,
         ml_predictor = Some predictor /\ models_loaded predictor = true /\
         predict_sla_violation predictor (Main.features_of telemetry) rnd = Raise e)
  end.
Proof.
  intros Hschema.
  destruct (validates_inv telemetry Hschema) as (Hb & Ht & _ & _ & Hl & _).
  unfold Main.predict_sla_violation.
  destruct ml_predictor as [predictor|]; simpl; [|left; split; reflexivity].
  destruct (models_loaded predictor) eqn:Hloaded; simpl; [|left; split; reflexivity].
  rewrite (proj2 (Qltb_ge (Schemas.bandwidth telemetry) 0) Hb).
  rewrite (proj2 (Qltb_ge (Schemas.throughput telemetry) 0) Ht).
  rewrite (proj2 (Qltb_ge (Schemas.latency telemetry) 0) Hl).
  simpl.
  destruct (predict_sla_violation predictor (Main.features_of telemetry) rnd)
    as [risk | e] eqn:Hrisk; simpl.
  - exists predictor, risk. repeat split; trivial.
  - right. split; [reflexivity|].
    exists predictor, e. repeat split; trivial.
Qed.

Lemma predict_route_status_witness :
  (exists predictor e,
     Some (loaded only_explainer_dir (MLPredictor_init "backend/app/ml/models")) =
       Some predictor /\
     models_loaded predictor = true /\
     predict_sla_violation predictor (Main.features_of healthy_telemetry) 0 =
       Raise e) /\
  Main.predict_sla_violation
    (Some (loaded only_explainer_dir (MLPredictor_init "backend/app/ml/models")))
    healthy_telemetry 0 "2024-01-01T00:00:00" =
  HTTPException 500 "Prediction failed".
Proof.
  pose proof (predict_route_status
                (Some (loaded only_explainer_dir
                         (MLPredictor_init "backend/app/ml/models")))
                healthy_telemetry 0 "2024-01-01T00:00:00" eq_refl) as H.
  split; [|reflexivity].
  cbv beta iota in H.
  destruct H as [[H _] | [_ H]]; [discriminate H | exact H].
Defined.

(** X15: With the fallback bank, POST /predict/ answers every valid record, and
    its risk level is consistent with the label in one direction only: a
    "high" level always comes with [sla_violation] 1, and a record labelled
    0 is "low" or "medium", never "high". *)
Theorem predict_route_fallback_levels
    (predictor : MLPredictor) (telemetry : Schemas.TelemetryCreate)
    (rnd : Q) (now : string) :
  serves_fallback predictor ->
  valid_features (Main.features_of telemetry) = true ->
  exists reply,
    Main.predict_sla_violation (Some predictor) telemetry rnd now = Response reply /\
    0 <= PredictReply.risk_score reply <= 1 /\
    (PredictReply.risk_level reply = "high" -> PredictReply.sla_violation reply = 1%Z) /\
    (PredictReply.sla_violation reply = 0%Z ->
     PredictReply.risk_level reply = "low" \/ PredictReply.risk_level reply = "medium").
Proof.
  intros Hfallback Hvalid.
  destruct (valid_features_inv _ Hvalid)
    as (b & t & c & p & l & j & Heq & Hb & Ht & Hc & Hp & Hl & Hj).
  unfold Main.features_of in Heq. injection Heq as Eb Et Ec Ep El Ej.
  unfold Main.predict_sla_violation, Main.features_of. simpl.
  destruct Hfallback as (Hloaded & Hrest). rewrite Hloaded. simpl.
  rewrite Eb, Et, Ec, Ep, El, Ej.
  rewrite (proj2 (Qltb_ge b 0) Hb), (proj2 (Qltb_ge t 0) Ht),
    (proj2 (Qltb_ge l 0) Hl). simpl.
  rewrite (predict_sla_violation_fallback_long predictor b t c p l rnd [j]
             (conj Hloaded Hrest)).
  eexists. split; [reflexivity|]. simpl.
  split; [split_min_max; qlra|].
  destruct (Qltb_cases 10 l) as [[-> H1] | [-> H1]]; [split; [trivial | discriminate]|].
  destruct (Qltb_cases 5 p) as [[-> H2] | [-> H2]]; [split; [trivial | discriminate]|].
  destruct (Qltb_cases t 1) as [[-> H3] | [-> H3]]; [split; [trivial | discriminate]|].
  assert (Hhalf :
    (py_min (l / 20) 1 + py_min (p / 10) 1 + py_max 0 ((2 - t) / 2)) / 3 <= 1 # 2)
    by (split_min_max; qlra).
  destruct (Qltb_cases 0.7
              ((py_min (l / 20) 1 + py_min (p / 10) 1 + py_max 0 ((2 - t) / 2)) / 3))
    as [[-> H7] | [-> H7]]; [exfalso; lra|].
  split; [|intros _].
  - destruct (Qltb 0.4 _); discriminate.
  - destruct (Qltb 0.4 _); auto.
Qed.

Lemma predict_route_fallback_levels_witness :
  exists reply,
    Main.predict_sla_violation (Some fallback_predictor) healthy_telemetry 0
      "2024-01-01T00:00:00" = Response reply /\
    0 <= PredictReply.risk_score reply <= 1 /\
    (PredictReply.risk_level reply = "high" -> PredictReply.sla_violation reply = 1%Z) /\
    (PredictReply.sla_violation reply = 0%Z ->
     PredictReply.risk_level reply = "low" \/ PredictReply.risk_level reply = "medium").
Proof.
  apply (predict_route_fallback_levels fallback_predictor healthy_telemetry).
  - repeat split.
  - reflexivity.
Defined.

(** X16: With the fallback bank, POST /anomaly/ answers every valid record; a
    record that is not flagged is always of "low" severity, so "medium" and
    "high" only come with [is_anomaly] true, and the action
    "immediate_investigation" is recommended exactly for "high". *)
Theorem anomaly_route_fallback_severity
    (predictor : MLPredictor) (telemetry : Schemas.TelemetryCreate) (now : string) :
  serves_fallback predictor ->
  valid_features (Main.features_of telemetry) = true ->
  exists reply,
    Main.detect_anomaly (Some predictor) telemetry now = Response reply /\
    0 <= AnomalyReply.anomaly_score reply <= 1 /\
    (AnomalyReply.is_anomaly reply = false -> AnomalyReply.severity reply = "low") /\
    (AnomalyReply.severity reply = "high" <->
     AnomalyReply.recommended_action reply = "immediate_investigation").
Proof.
  intros Hfallback Hvalid.
  destruct (valid_features_inv _ Hvalid)
    as (b & t & c & p & l & j & Heq & Hb & Ht & Hc & Hp & Hl & Hj).
  unfold Main.detect_anomaly. simpl.
  rewrite (proj1 Hfallback). simpl. rewrite Heq.
  destruct (detect_anomaly_fallback_eq predictor Hfallback b t c p l j) as [e ->].
  eexists. split; [reflexivity|].
  cbn [AnomalyReply.anomaly_score AnomalyReply.is_anomaly AnomalyReply.severity
       AnomalyReply.recommended_action is_anomaly anomaly_score explanation].
  split; [split_min_max; qlra|].
  split.
  - intros Hflag.
    apply orb_false_iff in Hflag. destruct Hflag as [Hflag H3].
    apply orb_false_iff in Hflag. destruct Hflag as [H1 H2].
    apply Qltb_ge in H1, H2, H3.
    assert (Hlow :
      py_max 0 ((1 - py_max (-1)
                        (py_min 1 (1 - (l / 30 + p / 20 + j / 10) / 3))) / 2) <= 23 # 72)
      by (split_min_max; qlra).
    rewrite (proj2 (Qltb_ge 0.8 _)) by lra.
    rewrite (proj2 (Qltb_ge 0.5 _)) by lra.
    reflexivity.
  - destruct (Qltb 0.8 _); [split; reflexivity|].
    destruct (Qltb 0.5 _); split; discriminate.
Qed.

Lemma anomaly_route_fallback_severity_witness :
  exists reply,
    Main.detect_anomaly (Some fallback_predictor) healthy_telemetry
      "2024-01-01T00:00:00" = Response reply /\
    0 <= AnomalyReply.anomaly_score reply <= 1 /\
    (AnomalyReply.is_anomaly reply = false -> AnomalyReply.severity reply = "low") /\
    (AnomalyReply.severity reply = "high" <->
     AnomalyReply.recommended_action reply = "immediate_investigation").
Proof.
  apply (anomaly_route_fallback_severity fallback_predictor healthy_telemetry).
  - repeat split.
  - reflexivity.
Defined.

(** X20: Start-up always leaves a predictor behind, because [load_models] does
    not raise; from then on POST /predict/ answers 503 in one situation
    only, the one in which the trained artifacts are unavailable and the
    fallback classes cannot be created.  When the artifacts are unavailable
    and the fallback can be created, every valid record is answered. *)
Theorem startup_then_predict
    (w : Env) (telemetry : Schemas.TelemetryCreate) (rnd : Q) (now : string) :
  Main.startup_predictor w =
    Some (loaded w (MLPredictor_init "backend/app/ml/models")) /\
  (Main.predict_sla_violation (Main.startup_predictor w) telemetry rnd now =
     HTTPException 503 "ML models not available" <->
   artifacts_unavailable w = true /\ sklearn_importable w = false) /\
  (artifacts_unavailable w = true -> sklearn_importable w = true ->
   valid_features (Main.features_of telemetry) = true ->
   exists reply,
     Main.predict_sla_violation (Main.startup_predictor w) telemetry rnd now =
       Response reply).
Proof.
  assert (Hstart : Main.startup_predictor w =
                   Some (loaded w (MLPredictor_init "backend/app/ml/models"))).
  { unfold Main.startup_predictor, loaded.
    pose proof (load_models_never_raises w (MLPredictor_init "backend/app/ml/models"))
      as Hok.
    destruct (load_models w (MLPredictor_init "backend/app/ml/models")) as [[[]|e] p];
      simpl in *; [reflexivity | discriminate]. }
  split; [exact Hstart|].
  rewrite Hstart.
  destruct (models_loaded_flag w "backend/app/ml/models") as [Hflag _].
  split; [split|].
  - intros H503.
    unfold Main.predict_sla_violation in H503. simpl in H503.
    destruct (models_loaded (loaded w (MLPredictor_init "backend/app/ml/models")))
      eqn:Hloaded; simpl in H503.
    + exfalso.
      match type of H503 with
      | context [if ?c then _ else _] => destruct c
      end; simpl in H503; [discriminate|].
      destruct (predict_sla_violation _ _ _); discriminate.
    + symmetry in Hflag. apply orb_false_iff in Hflag.
      destruct Hflag as [Hunavailable Hsk].
      apply negb_false_iff in Hunavailable. split; assumption.
  - intros [Hunavailable Hsk].
    unfold Main.predict_sla_violation. simpl.
    rewrite Hflag, Hunavailable, Hsk. reflexivity.
  - intros Hunavailable Hsk Hvalid.
    pose proof (load_models_installs_fallback_helper w
                  (MLPredictor_init "backend/app/ml/models") eq_refl Hunavailable Hsk)
      as Hfallback.
    destruct (valid_features_inv _ Hvalid)
      as (b & t & c & p & l & j & Heq & Hb & Ht & Hc & Hp & Hl & Hj).
    pose proof Heq as Heq'.
    unfold Main.features_of in Heq'. injection Heq' as Eb Et Ec Ep El Ej.
    unfold Main.predict_sla_violation. simpl.
    rewrite (proj1 Hfallback). simpl.
    rewrite Eb, Et, El.
    rewrite (proj2 (Qltb_ge b 0) Hb), (proj2 (Qltb_ge t 0) Ht),
      (proj2 (Qltb_ge l 0) Hl). simpl.
    unfold Main.features_of. rewrite Eb, Et, Ec, Ep, El, Ej.
    rewrite (predict_sla_violation_fallback_long _ b t c p l rnd [j] Hfallback).
    eexists. reflexivity.
Qed.

(** * Properties of the alert service *)

Section AlertProperties.

Variable Data : Type.
Variable render_email : AlertService.template -> Data -> result (string * string).
Variable render_telegram : AlertService.template -> Data -> result string.
Variable smtp_outcome : AlertService.attempt -> result unit.
Variable telegram_outcome : AlertService.attempt -> result Z.

Let send_multi_channel_alert :=
  AlertService.send_multi_channel_alert Data render_email render_telegram
    smtp_outcome telegram_outcome.

(** X21: An alert service without SMTP credentials and without a bot token
    drops every alert silently: nothing is attempted on either transport,
    no error is raised, and the result reports [False] for each channel
    that was asked for. *)
Theorem unconfigured_alerts_are_dropped
    (self : AlertService.t) (alert_type : string) (data : Data)
    (email telegram_chat_id : option string) (log : list AlertService.attempt) :
  AlertService.smtp_username self = "" \/ AlertService.smtp_password self = "" ->
  AlertService.telegram_bot_token self = "" ->
  snd (send_multi_channel_alert self alert_type data email telegram_chat_id log) = log /\
  fst (send_multi_channel_alert self alert_type data email telegram_chat_id log) =
    ((if AlertService.given email then [("email", false)] else []) ++
     (if AlertService.given telegram_chat_id then [("telegram", false)] else []))%list.
Proof.
  intros Hsmtp Htoken.
  unfold send_multi_channel_alert, AlertService.send_multi_channel_alert,
    AlertService.send_email_alert, AlertService.send_telegram_alert,
    AlertService.given.
  rewrite Htoken.
  assert (Hcred : negb (AlertService.nonempty (AlertService.smtp_username self))
                  || negb (AlertService.nonempty (AlertService.smtp_password self))
                  = true).
  { destruct Hsmtp as [-> | ->]; simpl; [reflexivity | apply orb_true_r]. }
  rewrite Hcred. simpl.
  destruct email as [to_email|], telegram_chat_id as [chat_id|]; simpl;
    try destruct (AlertService.nonempty to_email);
    try destruct (AlertService.nonempty chat_id); simpl; split; reflexivity.
Qed.

(** X22: The two channels are independent: when a bot token and a chat id are
    there and the message renders, the Telegram request is posted whatever
    happened on the e-mail channel (no credentials, a template that
    raises, an SMTP session that fails), and the result for "telegram" is
    [True] exactly when the API answers with status 200.  No call makes
    more than one attempt per channel. *)
Theorem telegram_is_tried_whatever_email_does
    (self : AlertService.t) (alert_type : string) (data : Data)
    (email : option string) (chat_id message : string)
    (log : list AlertService.attempt) :
  AlertService.nonempty (AlertService.telegram_bot_token self) = true ->
  AlertService.nonempty chat_id = true ->
  render_telegram (AlertService.select_template alert_type) data = Ok message ->
  let post :=
    AlertService.TelegramPost
      (AlertService.telegram_api_url self ++ "/sendMessage") chat_id message in
  let outcome := send_multi_channel_alert self alert_type data email (Some chat_id) log in
  In post (snd outcome) /\
  dict_get (fst outcome) "telegram" =
    Some match telegram_outcome post with
         | Ok status => Z.eqb status 200
         | Raise _ => false
         end /\
  (List.length (snd outcome) <= List.length log + 2)%nat.
Proof.
  intros Htoken Hchat Hrender post outcome. subst post outcome.
  unfold send_multi_channel_alert, AlertService.send_multi_channel_alert,
    AlertService.send_telegram_alert, AlertService.send_email_alert.
  rewrite Htoken, Hchat, Hrender.
  destruct email as [to_email|]; [destruct (AlertService.nonempty to_email)|];
    try destruct (negb _ || negb _);
    try destruct (render_email _ data) as [[subject html_body]|e];
    try destruct (smtp_outcome _);
    simpl; destruct (telegram_outcome _); simpl;
    (split; [repeat (apply in_or_app; right); left; reflexivity|];
     split; [reflexivity|];
     rewrite ?length_app; simpl; lia).
Qed.

End AlertProperties.
Lemma unconfigured_alerts_are_dropped_witness :
  snd (AlertService.send_multi_channel_alert unit plain_email plain_telegram
         smtp_refuses telegram_accepts unconfigured_alerts "sla_violation" tt
         (Some "ops@example.org") (Some "42") []) = [] /\
  fst (AlertService.send_multi_channel_alert unit plain_email plain_telegram
         smtp_refuses telegram_accepts unconfigured_alerts "sla_violation" tt
         (Some "ops@example.org") (Some "42") []) =
    [("email", false); ("telegram", false)].
Proof.
  apply (unconfigured_alerts_are_dropped unit plain_email plain_telegram
           smtp_refuses telegram_accepts unconfigured_alerts "sla_violation" tt
           (Some "ops@example.org") (Some "42") []).
  - left. reflexivity.
  - reflexivity.
Defined.

Lemma telegram_is_tried_whatever_email_does_witness :
  In (AlertService.TelegramPost
        "https://api.telegram.org/bot123:abc/sendMessage" "42" "text")
     (snd (AlertService.send_multi_channel_alert unit plain_email plain_telegram
             smtp_refuses telegram_accepts telegram_only_alerts "sla_violation" tt
             (Some "ops@example.org") (Some "42") [])) /\
  dict_get
    (fst (AlertService.send_multi_channel_alert unit plain_email plain_telegram
            smtp_refuses telegram_accepts telegram_only_alerts "sla_violation" tt
            (Some "ops@example.org") (Some "42") []))
    "telegram" = Some true /\
  (List.length
     (snd (AlertService.send_multi_channel_alert unit plain_email plain_telegram
             smtp_refuses telegram_accepts telegram_only_alerts "sla_violation" tt
             (Some "ops@example.org") (Some "42") [])) <= 0 + 2)%nat.
Proof.
  apply (telegram_is_tried_whatever_email_does unit plain_email plain_telegram
           smtp_refuses telegram_accepts telegram_only_alerts "sla_violation" tt
           (Some "ops@example.org") "42" "text" []); reflexivity.
Defined.

Lemma load_models_idempotent_unless_stale_witness :
  get_model_info
    (loaded unreadable_scaler_dir
       (loaded unreadable_scaler_dir (MLPredictor_init "backend/app/ml/models"))) =
  get_model_info
    (loaded unreadable_scaler_dir (MLPredictor_init "backend/app/ml/models")).
Proof.
  apply (load_models_idempotent_unless_stale unreadable_scaler_dir
           "backend/app/ml/models").
  reflexivity.
Defined.

(** * Training labels and the fallback rules *)

Lemma low_efficiency_spec (throughput bandwidth : Q) :
  0 < bandwidth ->
  MLTrainer.low_efficiency throughput bandwidth = Qltb throughput (bandwidth * 0.3).
Proof.
  intros Hpos. unfold MLTrainer.low_efficiency.
  assert (Hnonzero : ~ bandwidth == 0) by (intros E; rewrite E in Hpos; lra).
  destruct (Qeq_bool bandwidth 0) eqn:E.
  - apply Qeq_bool_iff in E. contradiction.
  - assert (Hquotient : throughput == bandwidth * (throughput / bandwidth))
      by (symmetry; apply Qmult_div_r; exact Hnonzero).
    remember (throughput / bandwidth) as quotient eqn:Hq. clear Hq.
    destruct (Qltb_cases quotient 0.3) as [[-> H] | [-> H]]; symmetry.
    + apply Qltb_lt. nra.
    + apply Qltb_ge. nra.
Qed.

(** X23: The label rule of the trainer and the fallback detector agree in one
    direction: every valid vector that the fallback detector flags meets
    the trainer's violation conditions, so its training label is 1 whatever
    the noise draw; a vector with training label 0 is never flagged. *)
Theorem flagged_vectors_are_training_violations
    (self : MLPredictor) (features : list Q) (draw : Q) :
  serves_fallback self ->
  valid_features features = true ->
  exists r,
    detect_anomaly self features = Ok r /\
    (is_anomaly r = true -> MLTrainer._generate_sla_labels features draw = Ok 1%Z) /\
    (MLTrainer._generate_sla_labels features draw = Ok 0%Z -> is_anomaly r = false).
Proof.
  intros Hfallback Hvalid.
  destruct (valid_features_inv _ Hvalid) as (b & t & c & p & l & j & -> & _).
  destruct (detect_anomaly_fallback_eq self Hfallback b t c p l j) as [e ->].
  eexists. split; [reflexivity|].
  cbn [is_anomaly].
  unfold MLTrainer._generate_sla_labels, MLTrainer.conditions. cbn [rbind].
  assert (Himplies :
    Qltb 20 l || Qltb 15 p || Qltb 5 j = true ->
    Qltb 15 l || Qltb 5 p || Qltb 3 j = true).
  { rewrite !orb_true_iff, !Qltb_lt. intros [[H | H] | H]; [left; left | left; right | right]; lra. }
  destruct (Qltb 20 l || Qltb 15 p || Qltb 5 j) eqn:Hflag.
  - specialize (Himplies eq_refl).
    split; [intros _ | intros H].
    + rewrite Himplies. reflexivity.
    + rewrite Himplies in H. discriminate.
  - split; [discriminate | reflexivity].
Qed.

Lemma flagged_vectors_are_training_violations_witness :
  exists r,
    detect_anomaly fallback_predictor [50; 5; 90; 8; 25; 6] = Ok r /\
    (is_anomaly r = true ->
     MLTrainer._generate_sla_labels [50; 5; 90; 8; 25; 6] 0.5 = Ok 1%Z) /\
    (MLTrainer._generate_sla_labels [50; 5; 90; 8; 25; 6] 0.5 = Ok 0%Z ->
     is_anomaly r = false).
Proof.
  apply (flagged_vectors_are_training_violations fallback_predictor).
  - repeat split.
  - reflexivity.
Defined.

(** X24: The thresholds of the label rule are exclusive and the noise is the
    only other source of a label 1: a row with latency at most 15, packet
    loss at most 5, jitter at most 3, congestion at most 80 and a throughput
    of at least 0.3 times its positive bandwidth is labelled 1 exactly when
    its draw is below 0.1; a row with latency above 15, packet loss above 5,
    jitter above 3 or congestion above 80 is labelled 1 whatever the
    draw. *)
Theorem training_label_thresholds
    (bandwidth throughput congestion packet_loss latency jitter draw : Q) :
  0 < bandwidth ->
  (latency <= 15 -> packet_loss <= 5 -> jitter <= 3 -> congestion <= 80 ->
   bandwidth * 0.3 <= throughput ->
   MLTrainer._generate_sla_labels
     [bandwidth; throughput; congestion; packet_loss; latency; jitter] draw =
   Ok (if Qltb draw 0.1 then 1%Z else 0%Z)) /\
  (15 < latency \/ 5 < packet_loss \/ 3 < jitter \/ 80 < congestion ->
   MLTrainer._generate_sla_labels
     [bandwidth; throughput; congestion; packet_loss; latency; jitter] draw =
   Ok 1%Z).
Proof.
  intros Hpos.
  unfold MLTrainer._generate_sla_labels, MLTrainer.conditions. cbn [rbind].
  rewrite (low_efficiency_spec throughput bandwidth Hpos).
  split.
  - intros H1 H2 H3 H4 H5.
    apply Qltb_ge in H1, H2, H3, H4, H5.
    rewrite H1, H2, H3, H4, H5. reflexivity.
  - intros H.
    assert (Hmet :
      Qltb 15 latency || Qltb 5 packet_loss || Qltb 3 jitter ||
      Qltb 80 congestion || Qltb throughput (bandwidth * 0.3) = true).
    { rewrite !orb_true_iff, !Qltb_lt. tauto. }
    rewrite Hmet. reflexivity.
Qed.

Lemma training_label_thresholds_witness :
  MLTrainer._generate_sla_labels [100; 30; 80; 5; 15; 3] 0.5 = Ok 0%Z /\
  MLTrainer._generate_sla_labels [100; 30; 80; 5; 15; 3.5] 0.5 = Ok 1%Z.
Proof.
  split.
  - apply (proj1 (training_label_thresholds 100 30 80 5 15 3 0.5 eq_refl));
      vm_compute; discriminate.
  - apply (proj2 (training_label_thresholds 100 30 80 5 15 3.5 0.5 eq_refl)).
    right. right. left. reflexivity.
Defined.
